(** * BestieAI A/B prompt-preference experiment: a shallow embedding of
      [updated_app.py] and the properties of its experiment loop.

    Strings are modelled as [string] (sequences of ASCII characters), Python
    dictionaries with a fixed shape as records or tagged unions, the
    insertion-ordered preference dictionary as an association list, and the
    effects of the program (network calls, files, mail) as explicit state
    passing over a [world]. *)

From Stdlib Require Import String Ascii List Bool Arith ZArith QArith Lia.
From Stdlib Require Import Permutation.
Import ListNotations.
Close Scope Q_scope.
Open Scope nat_scope.
Open Scope string_scope.

(** ** Python string helpers *)

Module PyStr.

(** The newline character, written in the source as the escape \n. *)
Definition nl : string := String (ascii_of_nat 10) EmptyString.

(** [str.isspace] on one ASCII character: tab, line feed, vertical tab, form
    feed, carriage return, the four separators 0x1c-0x1f and the space. *)
Definition isspace (c : ascii) : bool :=
  let n := nat_of_ascii c in
  (((9 <=? n) && (n <=? 13)) || ((28 <=? n) && (n <=? 32)))%nat.

(** [s.lstrip()] *)
Fixpoint lstrip (s : string) : string :=
  match s with
  | EmptyString => EmptyString
  | String c r => if isspace c then lstrip r else s
  end.

(** [s.rstrip()] *)
Fixpoint rstrip (s : string) : string :=
  match s with
  | EmptyString => EmptyString
  | String c r =>
      match rstrip r with
      | EmptyString => if isspace c then EmptyString else String c EmptyString
      | r' => String c r'
      end
  end.

(** [s.strip()] *)
Definition strip (s : string) : string := rstrip (lstrip s).

(** [sep.join(l)] *)
Fixpoint join (sep : string) (l : list string) : string :=
  match l with
  | [] => ""
  | [x] => x
  | x :: r => x ++ sep ++ join sep r
  end.

(** [s.split(",")]: the pieces between the separator characters; the result
    always has at least one piece. *)
Fixpoint split_on (sep : ascii) (s : string) : list string :=
  match s with
  | EmptyString => [""]
  | String c r =>
      if Ascii.eqb c sep then "" :: split_on sep r
      else match split_on sep r with
           | [] => [String c ""]
           | p :: ps => String c p :: ps
           end
  end.

(** Truthiness of a Python string: non-empty. *)
Definition truthy (s : string) : bool :=
  match s with EmptyString => false | _ => true end.

(** [l[-n:]] for a positive [n]: the last [n] items, all of them when the
    list is shorter. *)
Definition last_n {A} (n : nat) (l : list A) : list A :=
  skipn (length l - n) l.

End PyStr.

(** ** Data model *)

(** The dictionary built by [collect_user_profile]. *)
Record UserProfile := mkProfile {
  name : string;
  preferred_name : string;
  communication_style : string;
  top_interests : list string;
  recent_events : string;
  recent_topics : list string;
  open_questions : string;
  stated_preferences : string;
  emotional_trends : string
}.

(** The values of the widgets of the onboarding form. *)
Record OnboardingForm := mkForm {
  f_name : string;
  f_preferred_name : string;
  f_communication_style : string;
  f_selected_interests : list string;
  f_custom_interest : string;
  f_recent_events : string;
  f_recent_topics : string;
  f_open_questions : string;
  f_stated_preferences : string;
  f_emotional_state : string
}.

Definition comma : ascii := ascii_of_nat 44.

(** [collect_user_profile], lines 300-349, as a function of the widget
    values. *)
Definition collect_user_profile (f : OnboardingForm) : UserProfile :=
  let selected_interests :=
    if PyStr.truthy (f_custom_interest f)
    then (f_selected_interests f ++
          filter PyStr.truthy
            (map PyStr.strip (PyStr.split_on comma (f_custom_interest f))))%list
    else f_selected_interests f in
  let recent_topics_list :=
    if PyStr.truthy (f_recent_topics f)
    then map PyStr.strip (PyStr.split_on comma (f_recent_topics f))
    else [] in
  {| name := f_name f;
     preferred_name :=
       if PyStr.truthy (f_preferred_name f) then f_preferred_name f
       else f_name f;
     communication_style := f_communication_style f;
     top_interests := selected_interests;
     recent_events := f_recent_events f;
     recent_topics := recent_topics_list;
     open_questions := f_open_questions f;
     stated_preferences := f_stated_preferences f;
     emotional_trends := f_emotional_state f |}.

(** The two prompt strategies, the only values ever written to
    [option_a_tech] and [option_b_tech] (line 599). *)
Inductive technique := conditional | dynamic_context.

Definition technique_name (t : technique) : string :=
  match t with
  | conditional => "conditional"
  | dynamic_context => "dynamic_context"
  end.

Definition technique_eqb (a b : technique) : bool :=
  match a, b with
  | conditional, conditional | dynamic_context, dynamic_context => true
  | _, _ => false
  end.

(** The [responses] dictionary of an assistant turn: one text per
    strategy. *)
Record Responses := mkResponses {
  r_conditional : string;
  r_dynamic_context : string
}.

(** [responses[t]] *)
Definition responses_get (r : Responses) (t : technique) : string :=
  match t with
  | conditional => r_conditional r
  | dynamic_context => r_dynamic_context r
  end.

(** The three shapes of message dictionaries the program appends to
    [conversation_history]: a user turn (line 585), an assistant turn with
    one text (welcome, line 447, and nudge, line 630) and an assistant turn
    with the two candidates (line 604). Timestamps are left out. *)
Inductive message :=
| UserMsg (content : string)
| AssistantMsg (content : string)
| ExperimentMsg (content : string) (response_id : string)
    (responses : Responses) (option_a_tech option_b_tech : technique).

(** [message["content"]] *)
Definition msg_content (m : message) : string :=
  match m with
  | UserMsg c | AssistantMsg c | ExperimentMsg c _ _ _ _ => c
  end.

(** [message["role"] == "user"] *)
Definition is_user (m : message) : bool :=
  match m with UserMsg _ => true | _ => false end.

(** ** Context window *)

Definition CONTEXT_WINDOW : nat := 5.

(** The body of the loop of [get_conversation_context], lines 355-357. *)
Definition context_step (context : string) (m : message) : string :=
  let role := if is_user m then "User" else "BestieAI" in
  context ++ role ++ ": " ++ msg_content m ++ PyStr.nl.

(** [get_conversation_context], lines 351-358, as a function of the
    history. *)
Definition get_conversation_context (history : list message) : string :=
  PyStr.strip
    (fold_left context_step (PyStr.last_n CONTEXT_WINDOW history) "").

(** ** Prompt builder *)

(** [generate_conditional_response_prompt], lines 28-71. *)
Definition generate_conditional_response_prompt
    (user_profile : UserProfile) (conversation_context : string) : string :=
  let base_persona :=
    "You are BestieAI, a warm, supportive friend who genuinely cares about the user and communicates in a natural, conversational manner." in
  let user_context :=
    PyStr.join PyStr.nl
    ["You're speaking with " ++ (preferred_name user_profile) ++ ", who:";
     "- Has interests in: " ++ (PyStr.join ", " (top_interests user_profile));
     "- Recently: " ++ (recent_events user_profile);
     "- Has a communication style that is: " ++ (communication_style user_profile)] in
  let conditional_frameworks :=
    PyStr.join PyStr.nl
    ["Use these specialized response frameworks based on the detected user need:";
     "";
     "IF user is sharing personal experiences or emotions:";
     "  - Acknowledge their feelings first";
     "  - Show understanding through supportive language";
     "  - Match emotional tone appropriately";
     "  - Offer perspective or guidance only after validation";
     "  - Ask follow-up questions that explore emotional dimensions";
     "";
     "IF user is seeking factual information:";
     "  - Provide concise, accurate information upfront";
     "  - Support with relevant context and explanation";
     "  - Anticipate follow-up questions in your response";
     "  - Maintain friendly tone while emphasizing accuracy";
     "  - Acknowledge limitations of information when appropriate";
     "";
     "IF user is making a decision:";
     "  - Help structure the decision process";
     "  - Present relevant factors to consider";
     "  - Avoid overwhelming with too many options";
     "  - Reflect their stated priorities in your analysis";
     "  - Support their autonomy rather than directing";
     "";
     "IF user seems confused or frustrated:";
     "  - Use simpler language and shorter sentences";
     "  - Break down complex information into steps";
     "  - Confirm understanding before proceeding";
     "  - Offer alternative explanations or approaches";
     "  - Maintain encouraging, patient tone"] in
  let directive :=
    PyStr.join PyStr.nl
    ["First, determine which scenario best matches the user's message, then respond according to that framework while maintaining your friendly, personalized approach. Always sound like a supportive friend, not an AI assistant. Use appropriate cultural references when relevant.";
     "";
     "Current conversation context:";
     conversation_context;
     "";
     "Build on the ongoing conversation by referencing relevant points from the current chat. Avoid bringing up past habits or profile details unless directly relevant to the current topic. If the user's input is unclear, ask for clarification. Occasionally ask follow-up questions or suggest related topics to keep the conversation engaging."] in
  base_persona ++ PyStr.nl ++ PyStr.nl ++ user_context ++ PyStr.nl ++ PyStr.nl
    ++ conditional_frameworks ++ PyStr.nl ++ PyStr.nl ++ directive.

(** [generate_dynamic_context_prompt], lines 73-98. *)
Definition generate_dynamic_context_prompt
    (user_profile : UserProfile) (conversation_context : string) : string :=
  PyStr.join PyStr.nl
    ["You are BestieAI, a conversational AI that functions as a supportive, understanding best friend.";
     "";
     "Your conversation with " ++ (name user_profile) ++ " has the following relevant context:";
     "";
     "USER PROFILE:";
     "- Preferred name: " ++ (preferred_name user_profile);
     "- Communication style: " ++ (communication_style user_profile);
     "- Primary interests: " ++ (PyStr.join ", " (top_interests user_profile));
     "- Recent life events: " ++ (recent_events user_profile);
     "";
     "CURRENT CONVERSATION CONTEXT:";
     conversation_context;
     "";
     "Use this context to personalize your response while maintaining your friendly, supportive persona. Reference relevant points from the current conversation naturally without explicitly mentioning this instruction. Avoid bringing up past habits or profile details unless directly relevant to the current topic.";
     "";
     "Remember that you are simulating a best friend, not an assistant:";
     "- Use casual, warm language with appropriate expressions";
     "- Show genuine care and concern";
     "- Ask follow-up questions that demonstrate you remember and care about them";
     "- Share occasional thoughts or reactions as a friend would";
     "- Include culturally relevant references when appropriate";
     "";
     "If the user's input is unclear, ask for clarification. Occasionally ask follow-up questions or suggest related topics to keep the conversation engaging."].

(** ** Python dictionaries with string keys

    [st.session_state.preferred_technique] is an insertion-ordered
    dictionary from response identifiers to strategies: an association list
    in which a key occurs at most once. *)

Module Dict.

Definition t (V : Type) := list (string * V).

(** [k in d] *)
Fixpoint mem {V} (k : string) (d : t V) : bool :=
  match d with
  | [] => false
  | (k', _) :: r => if String.eqb k k' then true else mem k r
  end.

(** [d.get(k)] *)
Fixpoint get {V} (k : string) (d : t V) : option V :=
  match d with
  | [] => None
  | (k', v) :: r => if String.eqb k k' then Some v else get k r
  end.

(** [d[k] = v]: the value is replaced in place when the key is present, and
    the pair is added at the end otherwise. *)
Fixpoint set {V} (k : string) (v : V) (d : t V) : t V :=
  match d with
  | [] => [(k, v)]
  | (k', v') :: r =>
      if String.eqb k k' then (k', v) :: r else (k', v') :: set k v r
  end.

(** [d.values()] *)
Definition values {V} (d : t V) : list V := map snd d.

(** [d.keys()] *)
Definition keys {V} (d : t V) : list string := map fst d.

End Dict.

Definition PreferenceLog := Dict.t technique.

(** ** Statistics *)

(** A dictionary keyed by strategy, as [technique_counts] (line 480) and
    [preferred_techniques_count] (line 163). *)
Definition TechCounts := list (technique * nat).

(** [technique in counts] *)
Fixpoint tc_mem (t : technique) (c : TechCounts) : bool :=
  match c with
  | [] => false
  | (t', _) :: r => if technique_eqb t t' then true else tc_mem t r
  end.

(** [counts.get(t, 0)] *)
Fixpoint tc_get (t : technique) (c : TechCounts) : nat :=
  match c with
  | [] => 0
  | (t', n) :: r => if technique_eqb t t' then n else tc_get t r
  end.

(** [counts[t] = n] *)
Fixpoint tc_set (t : technique) (n : nat) (c : TechCounts) : TechCounts :=
  match c with
  | [] => [(t, n)]
  | (t', n') :: r =>
      if technique_eqb t t' then (t', n) :: r else (t', n') :: tc_set t n r
  end.

(** [max(l, key=key)]: the first item whose key is largest; [None] stands
    for the ValueError of an empty argument. *)
Definition py_max {A} (key : A -> nat) (l : list A) : option A :=
  match l with
  | [] => None
  | x :: r =>
      Some (fold_left (fun best y => if key best <? key y then y else best)%nat
                      r x)
  end.

(** The tally of lines 480-483 (and 467-470): both strategies start at
    zero, and each logged strategy that is a key of the tally adds one. *)
Definition count_votes (log : PreferenceLog) : TechCounts :=
  fold_left
    (fun counts technique =>
       if tc_mem technique counts
       then tc_set technique (tc_get technique counts + 1) counts
       else counts)
    (Dict.values log)
    [(conditional, 0); (dynamic_context, 0)].

(** Line 484:
    [max(technique_counts, key=technique_counts.get) if technique_counts
     else None]. A dictionary is true when it has a key. *)
Definition preferred_of_counts (technique_counts : TechCounts)
  : option technique :=
  match technique_counts with
  | [] => None
  | _ => py_max (fun t => tc_get t technique_counts) (map fst technique_counts)
  end.

(** The dominant strategy computed when the session is saved. *)
Definition dominant (log : PreferenceLog) : option technique :=
  preferred_of_counts (count_votes log).

(** [sum(technique_counts.values())] *)
Definition total_votes (c : TechCounts) : nat :=
  fold_left Nat.add (map snd c) 0.

(** [(count / total * 100) if total > 0 else 0], lines 174, 505 and 506,
    over exact rationals. *)
Definition percentage (count total : nat) : Q :=
  if (0 <? total)%nat
  then ((inject_Z (Z.of_nat count) / inject_Z (Z.of_nat total)) * 100)%Q
  else 0%Q.

(** The first loop of [save_conversation], lines 163-173: the rated
    assistant turns of the history, tallied by the strategy the log holds
    for them. The result is the pair of [preferred_techniques_count] and
    [total_responses]. *)
Definition tally_history (history : list message) (log : PreferenceLog)
  : TechCounts * nat :=
  fold_left
    (fun (acc : TechCounts * nat) message =>
       let '(counts, total_responses) := acc in
       match message with
       | ExperimentMsg _ response_id _ _ _ =>
           match Dict.get response_id log with
           | Some technique =>
               let counts :=
                 if tc_mem technique counts then counts
                 else tc_set technique 0 counts in
               (tc_set technique (tc_get technique counts + 1) counts,
                total_responses + 1)
           | None => acc
           end
       | _ => acc
       end)
    history ([], 0).

(** Line 174: [technique_percentages]. *)
Definition technique_percentages (counts : TechCounts) (total : nat)
  : list (technique * Q) :=
  map (fun '(tech, count) => (tech, percentage count total)) counts.

(** [technique_percentages.get(t, 0)], lines 201-202. *)
Fixpoint pct_get (t : technique) (p : list (technique * Q)) : Q :=
  match p with
  | [] => 0%Q
  | (t', q) :: r => if technique_eqb t t' then q else pct_get t r
  end.

(** ** Environment and external world *)

(** What a call returns: a value, or an exception that leaves the function. *)
Inductive result (A : Type) :=
| Returned (a : A)
| Raised (e : string).
Arguments Returned {A} a.
Arguments Raised {A} e.

(** The answer of the completion service to one request. *)
Inductive api_reply :=
| ApiText (content : string)
| ApiException (e : string).

(** What is in a file: what the last complete write put there, or the
    remains of a write that raised after the file had been opened (and so
    emptied) for writing. *)
Inductive file_content (A : Type) :=
| Complete (a : A)
| Damaged.
Arguments Complete {A} a.
Arguments Damaged {A}.

(** A write that raises: the text of the exception, and whether it was
    raised after the file had been opened for writing. *)
Record WriteFailure := mkWriteFailure {
  wf_text : string;
  wf_after_open : bool
}.

(** A session with the mail relay that raises: the text of the exception,
    and whether it was raised after [send_message] had gone through (by
    [quit]). *)
Record SmtpFailure := mkSmtpFailure {
  sf_text : string;
  sf_after_send : bool
}.

(** The document written by [json.dump], lines 175-186. *)
Record JsonDoc := mkJson {
  j_conversation_id : string;
  j_user_id : string;
  j_conversation_history : list message;
  j_preferred_technique : option technique;
  j_technique_percentages : list (technique * Q);
  j_user_profile : option UserProfile;
  j_total_responses : nat;
  j_detailed_preferences : PreferenceLog;
  j_feedback : string
}.

(** One row of the summary table, lines 196-208. *)
Record CsvRow := mkRow {
  c_conversation_id : string;
  c_user_id : string;
  c_preferred_technique : option technique;
  c_conditional_percentage : Q;
  c_dynamic_context_percentage : Q;
  c_conversation_length : nat;
  c_total_responses : nat;
  c_user_name : string;
  c_communication_style : string;
  c_feedback : string
}.

(** The process environment and the behaviour of the collaborators outside
    the program. An environment variable is [None] when it is not set. An
    outcome of [None] means that the operation succeeds, [Some] that it
    raises. *)
Record Env := mkEnv {
  OPENAI_API_KEY : option string;
  EMAIL_USERNAME : option string;
  EMAIL_PASSWORD : option string;
  SMTP_SERVER : option string;
  (** [int(os.getenv("SMTP_PORT", "587"))]: [Returned] with the port, or
      [Raised] when the variable is set to something that is no integer *)
  smtp_port : result nat;
  ADMIN_EMAIL : option string;
  (** the reply of the completion service to the n-th request *)
  completion : nat -> api_reply;
  (** [open(filename, "w")] and [json.dump], lines 190-191 *)
  json_dump : option WriteFailure;
  (** [df.to_csv], line 215 *)
  csv_write : option WriteFailure;
  (** the session with the relay, lines 151-155 *)
  smtp_send : option SmtpFailure;
  (** [os.makedirs], line 187 *)
  makedirs : option string;
  (** [pd.read_csv], line 211: the rows as pandas reads them back from what
      is in the file, or the exception it raises *)
  read_csv : file_content (list CsvRow) -> result (list CsvRow);
  (** opening and reading an attachment, lines 144-145 *)
  attachment_read : string -> option string
}.

(** Truthiness of [os.getenv(...)]: set and not empty. *)
Definition env_truthy (v : option string) : bool :=
  match v with Some s => PyStr.truthy s | None => false end.

(** Lines 20-23: the client exists exactly when the key is set. *)
Definition client (env : Env) : bool := env_truthy (OPENAI_API_KEY env).

(** One request to the completion service, line 105. *)
Record ApiRequest := mkRequest {
  req_model : string;
  req_system : string;
  req_user : string;
  req_max_tokens : nat
}.

(** A message handed to the mail relay. *)
Record Email := mkEmail {
  e_from : string;
  e_to : string;
  e_subject : string;
  e_body : string;
  e_attachments : list string
}.

(** Everything outside the process that the program changes: the requests
    sent to the completion service, the files of [conversation_data], the
    sessions started with the mail relay (one for each attempt to connect),
    the messages it accepted, and the
    error boxes shown by [st.error]. *)
Record World := mkWorld {
  api_calls : list ApiRequest;
  json_files : list (string * file_content JsonDoc);
  csv_file : option (file_content (list CsvRow));
  smtp_connections : list Email;
  delivered : list Email;
  errors_shown : list string
}.

Definition with_api_calls (w : World) v :=
  mkWorld v (json_files w) (csv_file w) (smtp_connections w) (delivered w)
          (errors_shown w).
Definition with_json_files (w : World) v :=
  mkWorld (api_calls w) v (csv_file w) (smtp_connections w) (delivered w)
          (errors_shown w).
Definition with_csv_file (w : World) v :=
  mkWorld (api_calls w) (json_files w) v (smtp_connections w) (delivered w)
          (errors_shown w).
Definition with_smtp_connections (w : World) v :=
  mkWorld (api_calls w) (json_files w) (csv_file w) v (delivered w)
          (errors_shown w).
Definition with_delivered (w : World) v :=
  mkWorld (api_calls w) (json_files w) (csv_file w) (smtp_connections w) v
          (errors_shown w).
Definition st_error (msg : string) (w : World) : World :=
  mkWorld (api_calls w) (json_files w) (csv_file w) (smtp_connections w)
          (delivered w) (errors_shown w ++ [msg])%list.

(** ** Completion gateway *)

Definition NO_KEY_ERROR : string :=
  "Error: OpenAI API key not found. Please set OPENAI_API_KEY in your environment variables.".

(** [get_completion], lines 100-117, with the default model and token
    bound. The function never raises: an exception of the call is caught and
    turned into a text. *)
Definition get_completion (env : Env) (system_prompt user_message : string)
    (w : World) : string * World :=
  if negb (client env) then (NO_KEY_ERROR, w)
  else
    let request := mkRequest "gpt-4o-mini" system_prompt user_message 400 in
    let w' := with_api_calls w (api_calls w ++ [request])%list in
    match completion env (length (api_calls w)) with
    | ApiText content => (content, w')
    | ApiException e => ("Error: " ++ e, w')
    end.

(** ** Session store *)

Definition CSV_PATH : string := "conversation_data/preferences_summary.csv".

(** [os.path.exists] on the paths the program uses. *)
Definition path_exists (w : World) (path : string) : bool :=
  if String.eqb path CSV_PATH
  then match csv_file w with Some _ => true | None => false end
  else existsb (fun f => String.eqb path (fst f)) (json_files w).

(** [d[k] = v] for the files of a directory: the file is replaced, or
    created. *)
Definition write_file {A} (filename : string) (content : A)
    (files : list (string * A)) : list (string * A) :=
  (filter (fun f => negb (String.eqb filename (fst f))) files
     ++ [(filename, content)])%list.

(** The first exception among the reads of a list of paths. *)
Fixpoint first_error (read : string -> option string) (paths : list string)
  : option string :=
  match paths with
  | [] => None
  | path :: rest =>
      match read path with
      | Some e => Some e
      | None => first_error read rest
      end
  end.

(** [send_email], lines 119-159. The port is read before the credentials are
    looked at; reading the port (line 125) and opening and reading the
    attachments that exist (lines 141-147) are outside the [try], so their
    exceptions leave the function. The session with the relay is inside the
    [try]: any exception of it gives [False], also one raised by [quit]
    after the message has gone through. *)
Definition send_email (env : Env) (recipient_email subject body : string)
    (attachments : list string) (w : World) : result bool * World :=
  match smtp_port env with
  | Raised e => (Raised e, w)
  | Returned _ =>
      if negb (env_truthy (EMAIL_USERNAME env))
         || negb (env_truthy (EMAIL_PASSWORD env))
      then (Returned false,
            st_error "Email credentials not found. Please set EMAIL_USERNAME and EMAIL_PASSWORD in your .env file." w)
      else
        let sender := match EMAIL_USERNAME env with Some s => s | None => "" end in
        let attached := filter (path_exists w) attachments in
        match first_error (attachment_read env) attached with
        | Some e => (Raised e, w)
        | None =>
            let msg := mkEmail sender recipient_email subject body attached in
            let w1 :=
              with_smtp_connections w (smtp_connections w ++ [msg])%list in
            match smtp_send env with
            | None =>
                (Returned true, with_delivered w1 (delivered w1 ++ [msg])%list)
            | Some f =>
                let w2 :=
                  if sf_after_send f
                  then with_delivered w1 (delivered w1 ++ [msg])%list
                  else w1 in
                (Returned false,
                 st_error ("Failed to send email: " ++ sf_text f) w2)
            end
        end
  end.

(** What [save_conversation] returns: [None], the file name, or the pair of
    the file name and the delivery flag. *)
Inductive save_result :=
| SaveNone
| SaveFile (filename : string)
| SaveFileEmail (filename : string) (email_sent : bool).

(** The transcript loop of the report, lines 267-274. *)
Definition email_transcript (history : list message) : string :=
  fold_left
    (fun email_body m =>
       match m with
       | UserMsg content =>
           email_body ++ "<div class='user-message'><strong>User:</strong> "
             ++ content ++ "</div>" ++ PyStr.nl
       | AssistantMsg content | ExperimentMsg content _ _ _ _ =>
           email_body
             ++ "<div class='assistant-message'><strong>BestieAI:</strong> "
             ++ content ++ "</div>" ++ PyStr.nl
       end)
    history "".

(** [save_conversation], lines 161-298. [log] and [profile] stand for
    [st.session_state.preferred_technique] and
    [st.session_state.user_profile]. Time stamps, the head of the report
    (style sheet, profile and statistics blocks) and the date in its subject
    are left out; attribute quotes of the transcript are written with
    apostrophes. [os.makedirs] (line 187) and the reading of the name of a
    profile that is [None] (line 205) are outside every [try]. A write that
    raises after its file was opened leaves the file damaged. The summary
    table is read back by pandas and written again as a whole (lines
    210-215). *)
Definition save_conversation (env : Env)
    (log : PreferenceLog) (profile : option UserProfile)
    (conversation_id user_id : string) (conversation_history : list message)
    (preferred_technique : option technique) (feedback : string)
    (send_email_report : bool) (w : World) : result save_result * World :=
  let '(preferred_techniques_count, total_responses) :=
    tally_history conversation_history log in
  let percentages :=
    technique_percentages preferred_techniques_count total_responses in
  let data := mkJson conversation_id user_id conversation_history
                preferred_technique percentages profile total_responses
                log feedback in
  match makedirs env with
  | Some e => (Raised e, w)
  | None =>
  let filename :=
    "conversation_data/conversation_" ++ conversation_id ++ ".json" in
  match json_dump env with
  | Some f =>
      let w' :=
        if wf_after_open f
        then with_json_files w (write_file filename Damaged (json_files w))
        else w in
      (Returned SaveNone,
       st_error ("Failed to save JSON file: " ++ wf_text f) w')
  | None =>
      let w1 :=
        with_json_files w
          (write_file filename (Complete data) (json_files w)) in
      match profile with
      | None => (Raised "AttributeError", w1)
      | Some user_profile =>
          let new_row :=
            mkRow conversation_id user_id preferred_technique
              (pct_get conditional percentages)
              (pct_get dynamic_context percentages)
              (length conversation_history) total_responses
              (name user_profile) (communication_style user_profile)
              feedback in
          let csv_failed (e : string) (w' : World) :=
            (Returned SaveNone,
             st_error ("Failed to save CSV file: " ++ e) w') in
          match
            match csv_file w1 with
            | Some content =>
                match read_csv env content with
                | Returned df => Returned (df ++ [new_row])%list
                | Raised e => Raised e
                end
            | None => Returned [new_row]
            end
          with
          | Raised e => csv_failed e w1
          | Returned df =>
          match csv_write env with
          | Some f =>
              csv_failed (wf_text f)
                (if wf_after_open f then with_csv_file w1 (Some Damaged)
                 else w1)
          | None =>
              let w2 := with_csv_file w1 (Some (Complete df)) in
              if send_email_report then
                match ADMIN_EMAIL env with
                | Some admin_email =>
                    if PyStr.truthy admin_email then
                      let attachments :=
                        ((if path_exists w2 CSV_PATH then [CSV_PATH] else [])
                         ++ (if path_exists w2 filename then [filename]
                             else []))%list in
                      match send_email env admin_email
                              ("BestieAI Conversation Summary - User: "
                                 ++ name user_profile)
                              (email_transcript conversation_history)
                              attachments w2 with
                      | (Returned email_sent, w3) =>
                          (Returned (SaveFileEmail filename email_sent), w3)
                      | (Raised e, w3) => (Raised e, w3)
                      end
                    else (Returned (SaveFile filename), w2)
                | None => (Returned (SaveFile filename), w2)
                end
              else (Returned (SaveFile filename), w2)
          end
          end
      end
  end
  end.

(** ** Session state and one pass of [main] *)

(** [st.session_state], lines 405-422 and 635. *)
Record Session := mkSession {
  ss_user_profile : option UserProfile;
  ss_conversation_history : list message;
  ss_conversation_id : string;
  ss_user_id : string;
  ss_preferred_technique : PreferenceLog;
  ss_onboarding_complete : bool;
  ss_current_message_processed : bool;
  ss_last_interaction_time : Q;
  ss_last_engagement_time : option Q;
  ss_input_key : nat
}.

(** The button that started the pass, if one did. The two vote buttons carry
    the response identifier of their widget key (lines 565 and 574). *)
Inductive Click :=
| StartChatting
| UpdateProfile
| SaveAndEnd
| PreferA (response_id : string)
| PreferB (response_id : string).

(** What one pass of the script reads from outside the session: the clock,
    the widgets, and the random draws. *)
Record Inputs := mkInputs {
  now : Q;
  form : OnboardingForm;
  click : option Click;
  user_input : string;
  feedback : string;
  uuid_response : string;
  uuid_conversation : string;
  uuid_user : string;
  shuffle_swaps : bool;
  nudge_choice : nat
}.

(** The session of a first pass, lines 405-422. *)
Definition initial_session (conversation_id user_id : string) (t : Q)
  : Session :=
  mkSession None [] conversation_id user_id [] false false t None 0.

(** The chat loop of lines 539-581 as far as it changes the session: the
    first turn that is still waiting for a vote and whose button was pressed
    gets the vote recorded and its content set. [None] when no vote button
    fires in this pass. *)
Fixpoint chat_vote (click : option Click) (log : PreferenceLog)
    (history : list message) : option (list message * PreferenceLog) :=
  match history with
  | [] => None
  | m :: rest =>
      let continue :=
        match chat_vote click log rest with
        | Some (h, l) => Some (m :: h, l)
        | None => None
        end in
      match m with
      | ExperimentMsg content response_id responses option_a_tech option_b_tech =>
          if Dict.mem response_id log then continue
          else
            let option_a := responses_get responses option_a_tech in
            let option_b := responses_get responses option_b_tech in
            match click with
            | Some (PreferA r) =>
                if String.eqb r response_id
                then Some (ExperimentMsg option_a response_id responses
                             option_a_tech option_b_tech :: rest,
                           Dict.set response_id option_a_tech log)
                else continue
            | Some (PreferB r) =>
                if String.eqb r response_id
                then Some (ExperimentMsg option_b response_id responses
                             option_a_tech option_b_tech :: rest,
                           Dict.set response_id option_b_tech log)
                else continue
            | _ => continue
            end
      | _ => continue
      end
  end.

(** What the chat loop writes to the page for one turn, lines 544-581, when
    no button fires. *)
Definition display_message (log : PreferenceLog) (m : message) : list string :=
  match m with
  | UserMsg content => ["**You:** " ++ content]
  | AssistantMsg content => ["**BestieAI:** " ++ content]
  | ExperimentMsg content response_id responses option_a_tech option_b_tech =>
      match Dict.get response_id log with
      | Some preferred_technique =>
          ["**BestieAI:** " ++ responses_get responses preferred_technique]
      | None =>
          ["**BestieAI:** (Please select your preferred response style)";
           "**Option A:**"; responses_get responses option_a_tech;
           "**Option B:**"; responses_get responses option_b_tech]
      end
  end.

Definition display_chat (log : PreferenceLog) (history : list message)
  : list string :=
  flat_map (display_message log) history.

(** The nudge texts of lines 622-628. *)
Definition engagement_messages (preferred : string) : list string :=
  ["Hey there! Still with me? I'd love to chat more about what's on your mind.";
   "Hi " ++ preferred ++ "! Anything else you'd like to talk about today?";
   "I'm here if you want to continue our conversation. What else is on your mind?";
   "Just checking in! Is there anything else you'd like to discuss, "
     ++ preferred ++ "?";
   "Taking a break? I'm here whenever you're ready to chat again!"].

(** Lines 584-618: a message typed by the user is taken when the flag
    [current_message_processed] is down. The user turn is appended, both
    prompts are built from the same context, both completions are fetched,
    and the turn with the two candidates is appended. [None] when the
    message is not taken. *)
Definition submit_message (env : Env) (inp : Inputs) (profile : UserProfile)
    (s : Session) (w : World) : option (Session * World) :=
  if PyStr.truthy (user_input inp)
     && negb (ss_current_message_processed s)
  then
    let history1 :=
      (ss_conversation_history s ++ [UserMsg (user_input inp)])%list in
    let conversation_context := get_conversation_context history1 in
    let response_id := uuid_response inp in
    let conditional_prompt :=
      generate_conditional_response_prompt profile conversation_context in
    let '(conditional_response, w1) :=
      get_completion env conditional_prompt (user_input inp) w in
    let dynamic_context_prompt :=
      generate_dynamic_context_prompt profile conversation_context in
    let '(dynamic_context_response, w2) :=
      get_completion env dynamic_context_prompt (user_input inp) w1 in
    let '(option_a_tech, option_b_tech) :=
      if shuffle_swaps inp then (dynamic_context, conditional)
      else (conditional, dynamic_context) in
    let history2 :=
      (history1 ++
       [ExperimentMsg "" response_id
          (mkResponses conditional_response dynamic_context_response)
          option_a_tech option_b_tech])%list in
    Some (mkSession (ss_user_profile s) history2 (ss_conversation_id s)
            (ss_user_id s) (ss_preferred_technique s)
            (ss_onboarding_complete s) true (now inp)
            (ss_last_engagement_time s) (ss_input_key s + 1), w2)
  else None.

(** Lines 619-637: the idle nudge. *)
Definition idle_nudge (inp : Inputs) (profile : UserProfile) (s : Session)
  : Session :=
  let current_time := now inp in
  if negb (Qle_bool (current_time - ss_last_interaction_time s) 60)
  then
    if match ss_last_engagement_time s with
       | None => true
       | Some t => negb (Qle_bool (current_time - t) 100)
       end
    then
      let engagement_message :=
        nth (nudge_choice inp) (engagement_messages (preferred_name profile))
            "" in
      mkSession (ss_user_profile s)
        (ss_conversation_history s ++ [AssistantMsg engagement_message])%list
        (ss_conversation_id s) (ss_user_id s) (ss_preferred_technique s)
        (ss_onboarding_complete s) (ss_current_message_processed s)
        current_time (Some current_time) (ss_input_key s)
    else s
  else s.

(** Lines 479-535: the button that saves and ends the session. The result
    of [save_conversation] is kept next to the new session. When the call
    raises, the script stops and the session is not reset. *)
Definition save_and_end (env : Env) (inp : Inputs) (s : Session) (w : World)
  : result save_result * Session * World :=
  let technique_counts := count_votes (ss_preferred_technique s) in
  let preferred_technique := preferred_of_counts technique_counts in
  match save_conversation env (ss_preferred_technique s) (ss_user_profile s)
          (ss_conversation_id s) (ss_user_id s) (ss_conversation_history s)
          preferred_technique (feedback inp) true w with
  | (Raised e, w') => (Raised e, s, w')
  | (Returned r, w') =>
      (Returned r,
       mkSession None [] (uuid_conversation inp) (uuid_user inp) [] false
         false (now inp) (ss_last_engagement_time s) 0,
       w')
  end.

(** Lines 495-498: the file name and the delivery flag read off the
    result. *)
Definition result_filename_sent (r : save_result) : option string * bool :=
  match r with
  | SaveFileEmail filename email_sent => (Some filename, email_sent)
  | SaveFile filename => (Some filename, false)
  | SaveNone => (None, false)
  end.

(** Lines 536-637, the part of the page below the side bar: the chat with
    its vote buttons, then the text input, then the idle nudge. A vote
    button that fires ends the pass, and so does a message that is
    taken. *)
Definition chat_and_input (env : Env) (inp : Inputs) (profile : UserProfile)
    (s1 : Session) (w : World) : Session * World :=
  match chat_vote (click inp) (ss_preferred_technique s1)
          (ss_conversation_history s1) with
  | Some (history', log') =>
      (mkSession (ss_user_profile s1) history'
         (ss_conversation_id s1) (ss_user_id s1) log'
         (ss_onboarding_complete s1) false
         (ss_last_interaction_time s1)
         (ss_last_engagement_time s1) (ss_input_key s1), w)
  | None =>
      match submit_message env inp profile s1 w with
      | Some sw => sw
      | None => (idle_nudge inp profile s1, w)
      end
  end.

(** Lines 445-451: the welcome turn of a history that is still empty. *)
Definition welcome_if_empty (profile : UserProfile) (history : list message)
  : list message :=
  match history with
  | [] =>
      [AssistantMsg
         ("Hi " ++ preferred_name profile
            ++ "! I'm BestieAI, your friendly companion. What's on your mind today?")]
  | _ => history
  end.

(** One pass of [main], lines 360-637, from the top of the script to its
    end or to the first [st.rerun()]. *)
Definition main (env : Env) (inp : Inputs) (s : Session) (w : World)
  : Session * World :=
  if negb (env_truthy (OPENAI_API_KEY env)) then
    (s, st_error "OpenAI API key not found. Please set OPENAI_API_KEY in your environment variables or .env file." w)
  else if negb (ss_onboarding_complete s) then
    match click inp with
    | Some StartChatting =>
        let user_profile := collect_user_profile (form inp) in
        if negb (PyStr.truthy (name user_profile))
        then (s, st_error "Please enter your name to continue." w)
        else
          (mkSession (Some user_profile) (ss_conversation_history s)
             (ss_conversation_id s) (ss_user_id s) (ss_preferred_technique s)
             true (ss_current_message_processed s)
             (ss_last_interaction_time s) (ss_last_engagement_time s)
             (ss_input_key s), w)
    | _ => (s, w)
    end
  else
    match ss_user_profile s with
    | None => (s, w)
    | Some profile =>
        let history := welcome_if_empty profile (ss_conversation_history s) in
        let s1 :=
          mkSession (ss_user_profile s) history (ss_conversation_id s)
            (ss_user_id s) (ss_preferred_technique s)
            (ss_onboarding_complete s) (ss_current_message_processed s)
            (ss_last_interaction_time s) (ss_last_engagement_time s)
            (ss_input_key s) in
        match click inp with
        | Some UpdateProfile =>
            (mkSession (ss_user_profile s1) history (ss_conversation_id s1)
               (ss_user_id s1) (ss_preferred_technique s1) false
               (ss_current_message_processed s1)
               (ss_last_interaction_time s1) (ss_last_engagement_time s1)
               (ss_input_key s1), w)
        | Some SaveAndEnd =>
            let '(_, s2, w2) := save_and_end env inp s1 w in (s2, w2)
        | _ => chat_and_input env inp profile s1 w
        end
    end.

(** ** Quantities the properties are stated with *)

(** The number of entries of the log that hold a strategy. *)
Definition votes_for (t : technique) (log : PreferenceLog) : nat :=
  List.length (filter (technique_eqb t) (Dict.values log)).

(** The response identifiers of the turns that carry two candidates, in
    the order of the history. *)
Fixpoint experiment_ids (history : list message) : list string :=
  match history with
  | [] => []
  | ExperimentMsg _ response_id _ _ _ :: rest =>
      response_id :: experiment_ids rest
  | _ :: rest => experiment_ids rest
  end.

(** The identifiers of the turns that wait for a vote (Pending): the
    turns with two candidates whose identifier is not in the log. *)
Definition pending_ids (log : PreferenceLog) (history : list message)
  : list string :=
  filter (fun r => negb (Dict.mem r log)) (experiment_ids history).

(** The most recent assistant turn of the history waits for a vote. *)
Fixpoint last_assistant_pending (log : PreferenceLog)
    (history : list message) : bool :=
  match history with
  | [] => false
  | m :: rest =>
      if existsb (fun m' => negb (is_user m')) rest
      then last_assistant_pending log rest
      else match m with
           | ExperimentMsg _ response_id _ _ _ => negb (Dict.mem response_id log)
           | _ => false
           end
  end.

(** The two labels under which the candidates are shown. *)
Inductive label := OptionA | OptionB.

Definition click_of (l : label) (response_id : string) : Click :=
  match l with
  | OptionA => PreferA response_id
  | OptionB => PreferB response_id
  end.

Definition technique_of (l : label) (option_a_tech option_b_tech : technique)
  : technique :=
  match l with OptionA => option_a_tech | OptionB => option_b_tech end.

(** The draws of one pass that the program takes to be new: the response
    identifier is not the identifier of a turn of the history. *)
Definition fresh_uuid (inp : Inputs) (s : Session) : Prop :=
  ~ In (uuid_response inp) (experiment_ids (ss_conversation_history s)).

(** The sessions of runs in which every drawn identifier is new. *)
Inductive run (env : Env) : Session -> World -> Prop :=
| run_init : forall cid uid t w,
    run env (initial_session cid uid t) w
| run_pass : forall inp s w,
    run env s w ->
    fresh_uuid inp s ->
    run env (fst (main env inp s w)) (snd (main env inp s w)).

(** The context window as the specification words it: the last five turns,
    one line each, with the prefixes User and Assistant. *)
Definition spec_context_line (m : message) : string :=
  (if is_user m then "User" else "Assistant") ++ ": " ++ msg_content m.

Definition spec_context_window (history : list message) : string :=
  PyStr.join PyStr.nl (map spec_context_line (PyStr.last_n 5 history)).

(** One line of the context as the program writes it, with its line end. *)
Definition context_line (m : message) : string :=
  (if is_user m then "User" else "BestieAI") ++ ": " ++ msg_content m
    ++ PyStr.nl.

(** The strategies the log holds for a list of response identifiers, in the
    order of the identifiers. *)
Definition rated_of (log : PreferenceLog) (ids : list string)
  : list technique :=
  flat_map (fun rid => match Dict.get rid log with
                       | Some t => [t]
                       | None => []
                       end) ids.

(** The number of occurrences of a strategy in a list. *)
Definition occurrences (t : technique) (l : list technique) : nat :=
  List.length (filter (technique_eqb t) l).

(** The name of the document of a conversation, line 188. *)
Definition conversation_filename (conversation_id : string) : string :=
  "conversation_data/conversation_" ++ conversation_id ++ ".json".

(** The document and the row of a conversation are on disk. *)
Definition persisted (conversation_id : string) (w : World) : Prop :=
  (exists data,
     In (conversation_filename conversation_id, Complete data)
        (json_files w) /\
     j_conversation_id data = conversation_id) /\
  (exists rows row,
     csv_file w = Some (Complete (rows ++ [row])%list) /\
     c_conversation_id row = conversation_id).

(** The pass takes the typed message and completes the turn with the
    configuration error in place of both replies. *)
Definition turn_completes_with_error (env : Env) (inp : Inputs) (s : Session)
    (w : World) : Prop :=
  exists a b,
    ss_conversation_history (fst (main env inp s w))
    = (ss_conversation_history s ++
       [UserMsg (user_input inp);
        ExperimentMsg "" (uuid_response inp)
          (mkResponses NO_KEY_ERROR NO_KEY_ERROR) a b])%list.

(** The summary table can be read back: there is none yet, or pandas reads
    the one that is there. *)
Definition csv_readable (env : Env) (w : World) : Prop :=
  match csv_file w with
  | Some content => exists rows, read_csv env content = Returned rows
  | None => True
  end.

(** The rows pandas reads back from the summary table, none when there is
    no table yet. *)
Definition rows_read_back (env : Env) (w : World) : list CsvRow :=
  match csv_file w with
  | Some content =>
      match read_csv env content with Returned rows => rows | Raised _ => [] end
  | None => []
  end.

(** Every attachment can be opened and read. *)
Definition attachments_readable (env : Env) : Prop :=
  forall path, attachment_read env path = None.

(** The invariant of the session: identifiers of turns are pairwise
    different, the log has one entry per key and only keys of turns of the
    history, at most one turn waits for a vote, and while one does the flag
    [current_message_processed] is up. *)
Definition core_inv (history : list message) (log : PreferenceLog)
    (current_message_processed : bool) : Prop :=
  NoDup (experiment_ids history) /\
  NoDup (Dict.keys log) /\
  incl (Dict.keys log) (experiment_ids history) /\
  List.length (pending_ids log history) <= 1 /\
  (pending_ids log history <> [] -> current_message_processed = true).

Definition session_inv (s : Session) : Prop :=
  core_inv (ss_conversation_history s) (ss_preferred_technique s)
           (ss_current_message_processed s) /\
  (ss_onboarding_complete s = true -> ss_user_profile s <> None).

(** ** A sample run *)

Module Sample.

(** A table whose cells pandas reads back as they were written; a damaged
    table cannot be read. *)
Definition read_back (content : file_content (list CsvRow))
  : result (list CsvRow) :=
  match content with
  | Complete rows => Returned rows
  | Damaged => Raised "EmptyDataError"
  end.

Definition env : Env :=
  mkEnv (Some "sk-test") (Some "bot@example.com") (Some "secret") None
        (Returned 587) (Some "admin@example.com")
        (fun n => ApiText (if Nat.even n then "reply one" else "reply two"))
        None None None None read_back (fun _ => None).

Definition form1 : OnboardingForm :=
  mkForm "Ann" "" "Casual and conversational" ["Music"; "Travel"] ""
         "" "" "" "" "Neutral".

(** The same environment with no completion credential. *)
Definition env_no_key : Env :=
  mkEnv None (Some "bot@example.com") (Some "secret") None
        (Returned 587) (Some "admin@example.com")
        (fun n => ApiText "reply") None None None None read_back (fun _ => None).

(** The mail relay refuses the message. *)
Definition env_smtp_down : Env :=
  mkEnv (Some "sk-test") (Some "bot@example.com") (Some "secret") None
        (Returned 587) (Some "admin@example.com")
        (fun n => ApiText "reply") None None (Some (mkSmtpFailure "Connection refused" false))
        None read_back (fun _ => None).

(** The document cannot be written. *)
Definition env_disk_full : Env :=
  mkEnv (Some "sk-test") (Some "bot@example.com") (Some "secret") None
        (Returned 587) (Some "admin@example.com")
        (fun n => ApiText "reply") (Some (mkWriteFailure "No space left on device" true)) None None
        None read_back (fun _ => None).

(** The summary table cannot be written. *)
Definition env_csv_locked : Env :=
  mkEnv (Some "sk-test") (Some "bot@example.com") (Some "secret") None
        (Returned 587) (Some "admin@example.com")
        (fun n => ApiText "reply") None (Some (mkWriteFailure "Permission denied" false)) None
        None read_back (fun _ => None).

(** The port of the relay is no number. *)
Definition env_bad_port : Env :=
  mkEnv (Some "sk-test") (Some "bot@example.com") (Some "secret") None
        (Raised "invalid literal for int()") (Some "admin@example.com")
        (fun n => ApiText "reply") None None None None read_back (fun _ => None).

Definition profile : UserProfile := collect_user_profile form1.

Definition world : World := mkWorld [] [] None [] [] [].

Definition inputs (c : option Click) (text rid : string) : Inputs :=
  mkInputs 0%Q form1 c text "" rid "conv-2" "user-2" true 0.

Definition s0 : Session := initial_session "conv-1" "user-1" 0%Q.

(** Onboarding, then a first message: a turn now waits for a vote. *)
Definition p1 := main env (inputs (Some StartChatting) "" "r0") s0 world.
Definition p2 :=
  main env (inputs None "I'm nervous about my trip tomorrow" "r1")
       (fst p1) (snd p1).
(** The vote for option B. *)
Definition p3 := main env (inputs (Some (PreferB "r1")) "" "r2") (fst p2) (snd p2).

End Sample.

(** ** Further quantities *)

(** Lines 504-506: the percentage of a strategy in the summary shown after
    the session is saved. *)
Definition summary_percent (log : PreferenceLog) (t : technique) : Q :=
  let technique_counts := count_votes log in
  let total_votes := total_votes technique_counts in
  percentage (tc_get t technique_counts) total_votes.

(** The text that stands for a reply of the completion service, lines
    115-117. *)
Definition reply_text (r : api_reply) : string :=
  match r with
  | ApiText content => content
  | ApiException e => "Error: " ++ e
  end.

(** The two labels of a turn with candidates stand for different
    strategies. *)
Definition labels_differ (m : message) : Prop :=
  match m with
  | ExperimentMsg _ _ _ a b => a <> b
  | _ => True
  end.

(** The content of a turn with candidates is empty while it waits for its
    vote and the text of the voted strategy afterwards. *)
Definition content_matches (log : PreferenceLog) (m : message) : Prop :=
  match m with
  | ExperimentMsg content rid responses _ _ =>
      content = match Dict.get rid log with
                | Some t => responses_get responses t
                | None => ""
                end
  | _ => True
  end.

(** All characters of a string are white space. *)
Fixpoint all_space (s : string) : bool :=
  match s with
  | EmptyString => true
  | String c r => PyStr.isspace c && all_space r
  end.

(** The last character of a string. *)
Fixpoint last_char (s : string) : option ascii :=
  match s with
  | EmptyString => None
  | String c EmptyString => Some c
  | String _ r => last_char r
  end.

(** The number of occurrences of a character in a string. *)
Fixpoint count_char (c : ascii) (s : string) : nat :=
  match s with
  | EmptyString => 0
  | String c' r => (if Ascii.eqb c' c then 1 else 0) + count_char c r
  end.

(** * Properties *)

(** ** Strings and lists *)

Lemma append_assoc (a b c : string) : (a ++ b) ++ c = a ++ (b ++ c).
Proof.
  induction a as [|ch a IH]; simpl; [reflexivity|].
  now rewrite IH.
Qed.

Lemma append_empty_r (a : string) : a ++ "" = a.
Proof.
  induction a as [|ch a IH]; simpl; [reflexivity|].
  now rewrite IH.
Qed.

Lemma last_n_suffix {A} (n : nat) (l : list A) :
  (firstn (List.length l - n) l ++ PyStr.last_n n l)%list = l.
Proof. unfold PyStr.last_n. apply firstn_skipn. Qed.

Lemma last_n_length {A} (n : nat) (l : list A) :
  List.length (PyStr.last_n n l) = Nat.min n (List.length l).
Proof. unfold PyStr.last_n. rewrite length_skipn. lia. Qed.

(** ** Onboarding *)

(** C9: the preferred name of the profile built from the onboarding form is
    the entered name when the preferred-name field is empty, and the entered
    preferred name otherwise. *)
Theorem collect_user_profile_preferred_name (f : OnboardingForm) :
  preferred_name (collect_user_profile f) =
  if String.eqb (f_preferred_name f) "" then f_name f
  else f_preferred_name f.
Proof.
  unfold collect_user_profile; simpl.
  destruct (f_preferred_name f); reflexivity.
Qed.

(** ** Prompt builder *)

Lemma conditional_prompt_char20 (P : UserProfile) (C : string) :
  String.get 20 (generate_conditional_response_prompt P C) = Some "w"%char.
Proof. reflexivity. Qed.

Lemma dynamic_prompt_char20 (P : UserProfile) (C : string) :
  String.get 20 (generate_dynamic_context_prompt P C) = Some "c"%char.
Proof. reflexivity. Qed.

(** C8: each prompt builder is a function of the profile and the context
    window alone, so two calls on the same pair give the same string, and
    on every pair the two builders give different strings. *)
Theorem prompt_builders_deterministic_and_distinct
    (P : UserProfile) (C : string) :
  (forall P' C', (P', C') = (P, C) ->
     generate_conditional_response_prompt P' C'
       = generate_conditional_response_prompt P C /\
     generate_dynamic_context_prompt P' C'
       = generate_dynamic_context_prompt P C) /\
  String.eqb (generate_conditional_response_prompt P C)
             (generate_dynamic_context_prompt P C) = false.
Proof.
  split.
  - intros P' C' E. inversion E; subst. split; reflexivity.
  - apply String.eqb_neq. intro E.
    pose proof (conditional_prompt_char20 P C) as Hc.
    rewrite E, dynamic_prompt_char20 in Hc. discriminate.
Qed.

Lemma prompt_builders_witness :
  String.eqb
    (generate_conditional_response_prompt Sample.profile "User: hi")
    (generate_dynamic_context_prompt Sample.profile "User: hi") = false.
Proof.
  exact (proj2 (prompt_builders_deterministic_and_distinct
                  Sample.profile "User: hi")).
Defined.

(** ** Statistics *)

Lemma technique_eqb_eq (a b : technique) : technique_eqb a b = true <-> a = b.
Proof. destruct a, b; simpl; split; congruence. Qed.

Lemma technique_eqb_refl (a : technique) : technique_eqb a a = true.
Proof. now destruct a. Qed.

Lemma count_votes_acc (vals : list technique) (a b : nat) :
  fold_left
    (fun counts technique =>
       if tc_mem technique counts
       then tc_set technique (tc_get technique counts + 1) counts
       else counts)
    vals [(conditional, a); (dynamic_context, b)]
  = [(conditional, a + List.length (filter (technique_eqb conditional) vals));
     (dynamic_context,
      b + List.length (filter (technique_eqb dynamic_context) vals))].
Proof.
  revert a b. induction vals as [|v vals IH]; intros a b; simpl.
  - now rewrite !Nat.add_0_r.
  - destruct v; simpl; rewrite IH, <- ?Nat.add_assoc; reflexivity.
Qed.

Lemma count_votes_spec (log : PreferenceLog) :
  count_votes log =
  [(conditional, votes_for conditional log);
   (dynamic_context, votes_for dynamic_context log)].
Proof. unfold count_votes. now rewrite count_votes_acc. Qed.

(** The strategy named when the session is saved is the one with more
    votes, and the first of the two, [conditional], when the votes are
    equal. *)
Lemma dominant_argmax (log : PreferenceLog) :
  dominant log =
  Some (if votes_for conditional log <? votes_for dynamic_context log
        then dynamic_context else conditional)%nat.
Proof.
  unfold dominant. rewrite count_votes_spec. reflexivity.
Qed.

Lemma votes_total (log : PreferenceLog) :
  votes_for conditional log + votes_for dynamic_context log
  = List.length log.
Proof.
  unfold votes_for, Dict.values.
  induction log as [|[k v] log IH]; simpl; [reflexivity|].
  destruct v; simpl; lia.
Qed.

(** C1: on the empty preference log the strategy computed at session end is
    [conditional], where the claim asks for none: the guard of line 484
    tests a tally that always has its two keys. *)
Theorem dominant_empty_log_is_conditional :
  dominant [] = Some conditional /\
  (forall log, dominant log <> None).
Proof.
  split; [reflexivity|].
  intro log. rewrite dominant_argmax. discriminate.
Qed.

(** ** Context window *)

Lemma fold_context_step (l : list message) (acc : string) :
  fold_left context_step l acc
  = acc ++ fold_right String.append "" (map context_line l).
Proof.
  revert acc. induction l as [|m l IH]; intro acc; simpl.
  - now rewrite append_empty_r.
  - rewrite IH. unfold context_step, context_line.
    now rewrite !append_assoc.
Qed.

(** C4, as the claim words it, fails: an assistant turn is written with the
    prefix BestieAI, not Assistant. *)
Lemma context_window_prefix_counterexample :
  get_conversation_context [UserMsg "hi"; AssistantMsg "hello"]
  <> spec_context_window [UserMsg "hi"; AssistantMsg "hello"].
Proof. vm_compute. discriminate. Qed.

(** C4, amended: the context is made from the last five turns of the
    history (all of them when there are fewer), oldest first; each turn
    gives one line, prefixed User for a user turn and BestieAI for an
    assistant turn and closed by a line end, and white space at both ends
    of the whole text is removed. *)
Theorem context_window_last_five (history : list message) :
  let window := PyStr.last_n CONTEXT_WINDOW history in
  (exists older, history = (older ++ window)%list) /\
  List.length window = Nat.min 5 (List.length history) /\
  get_conversation_context history
  = PyStr.strip (fold_right String.append "" (map context_line window)).
Proof.
  cbv zeta. split; [|split].
  - eexists. symmetry. apply last_n_suffix.
  - apply last_n_length.
  - unfold get_conversation_context. now rewrite fold_context_step.
Qed.

Example context_window_six_turns :
  get_conversation_context
    [AssistantMsg "zero"; UserMsg "one"; AssistantMsg "two"; UserMsg "three";
     AssistantMsg "four"; UserMsg "five "]
  = "User: one" ++ PyStr.nl ++ "BestieAI: two" ++ PyStr.nl ++ "User: three"
      ++ PyStr.nl ++ "BestieAI: four" ++ PyStr.nl ++ "User: five".
Proof. reflexivity. Qed.

(** ** The preference log as a dictionary *)

Section DictFacts.
Context {V : Type}.
Implicit Types (d : Dict.t V) (k r : string) (v : V).

Lemma dict_mem_In k d : Dict.mem k d = true <-> In k (Dict.keys d).
Proof.
  induction d as [|[k' v'] d IH]; simpl.
  - split; [discriminate | tauto].
  - destruct (String.eqb_spec k k') as [->|Hne].
    + split; auto.
    + rewrite IH. split; [auto | intros [E|H]; congruence].
Qed.

Lemma dict_mem_false k d : Dict.mem k d = false <-> ~ In k (Dict.keys d).
Proof.
  rewrite <- dict_mem_In. destruct (Dict.mem k d); split; congruence.
Qed.

Lemma dict_set_new r v d :
  Dict.mem r d = false -> Dict.set r v d = (d ++ [(r, v)])%list.
Proof.
  induction d as [|[k' v'] d IH]; simpl; [reflexivity|].
  destruct (String.eqb r k'); [discriminate|].
  intro H. now rewrite IH.
Qed.

Lemma dict_mem_set k r v d :
  Dict.mem k (Dict.set r v d) = (String.eqb k r || Dict.mem k d)%bool.
Proof.
  induction d as [|[k' v'] d IH]; simpl.
  - destruct (String.eqb k r); reflexivity.
  - destruct (String.eqb_spec r k') as [->|Hne]; simpl.
    + destruct (String.eqb k k'); reflexivity.
    + rewrite IH. destruct (String.eqb k k'), (String.eqb k r); reflexivity.
Qed.

Lemma dict_get_set_same r v d : Dict.get r (Dict.set r v d) = Some v.
Proof.
  induction d as [|[k' v'] d IH]; simpl.
  - now rewrite String.eqb_refl.
  - destruct (String.eqb_spec r k') as [->|Hne]; simpl.
    + now rewrite String.eqb_refl.
    + destruct (String.eqb_spec r k'); [contradiction | exact IH].
Qed.

Lemma dict_get_set_other k r v d :
  k <> r -> Dict.get k (Dict.set r v d) = Dict.get k d.
Proof.
  intro Hne. induction d as [|[k' v'] d IH]; simpl.
  - destruct (String.eqb_spec k r); [contradiction | reflexivity].
  - destruct (String.eqb_spec r k') as [->|Hne']; simpl.
    + destruct (String.eqb_spec k k'); [contradiction | reflexivity].
    + now rewrite IH.
Qed.

Lemma dict_get_mem k d :
  Dict.mem k d = match Dict.get k d with Some _ => true | None => false end.
Proof.
  induction d as [|[k' v'] d IH]; simpl; [reflexivity|].
  destruct (String.eqb k k'); [reflexivity | exact IH].
Qed.

Lemma dict_get_In k v d :
  NoDup (Dict.keys d) -> (Dict.get k d = Some v <-> In (k, v) d).
Proof.
  induction d as [|[k' v'] d IH]; simpl; intro ND.
  - split; [discriminate | tauto].
  - inversion ND as [|? ? Hnotin ND']; subst.
    destruct (String.eqb_spec k k') as [->|Hne].
    + split.
      * intros [= ->]. now left.
      * intros [[= ->]|Hin]; [reflexivity|].
        exfalso. apply Hnotin. unfold Dict.keys.
        change k' with (fst (k', v)). now apply in_map.
    + rewrite (IH ND'). split; [auto | intros [[= -> ->]|H]; [congruence | auto]].
Qed.

End DictFacts.

(** ** The invariant of the session *)

Lemma experiment_ids_app (h1 h2 : list message) :
  experiment_ids (h1 ++ h2) = (experiment_ids h1 ++ experiment_ids h2)%list.
Proof.
  induction h1 as [|m h1 IH]; simpl; [reflexivity|].
  destruct m; simpl; now rewrite IH.
Qed.

Lemma filter_andb {A} (p q : A -> bool) (l : list A) :
  filter (fun x => p x && q x)%bool l = filter p (filter q l).
Proof.
  induction l as [|x l IH]; simpl; [reflexivity|].
  destruct (q x); simpl; rewrite ?andb_false_r, ?andb_true_r.
  - destruct (p x); now rewrite IH.
  - exact IH.
Qed.

Lemma pending_ids_set (rid : string) (t : technique) (log : PreferenceLog)
    (h : list message) :
  pending_ids (Dict.set rid t log) h
  = filter (fun r => negb (String.eqb r rid)) (pending_ids log h).
Proof.
  unfold pending_ids. rewrite <- filter_andb.
  apply filter_ext. intro r. now rewrite dict_mem_set, negb_orb.
Qed.

Lemma pending_ids_In (rid : string) (log : PreferenceLog) (h : list message) :
  In rid (pending_ids log h)
  <-> In rid (experiment_ids h) /\ Dict.mem rid log = false.
Proof.
  unfold pending_ids. rewrite filter_In, negb_true_iff. tauto.
Qed.

Lemma core_inv_ids (h h' : list message) (log : PreferenceLog) (b : bool) :
  experiment_ids h' = experiment_ids h -> core_inv h log b -> core_inv h' log b.
Proof.
  unfold core_inv, pending_ids. intros ->. tauto.
Qed.

Lemma core_inv_reset : core_inv [] [] false.
Proof.
  unfold core_inv; simpl.
  split; [constructor|]. split; [constructor|].
  split; [intros x []|]. split; [lia|].
  intro H. now destruct H.
Qed.

Lemma core_inv_vote (h h' : list message) (log : PreferenceLog) (b : bool)
    (rid : string) (t : technique) :
  core_inv h log b ->
  Dict.mem rid log = false ->
  In rid (experiment_ids h) ->
  experiment_ids h' = experiment_ids h ->
  core_inv h' (Dict.set rid t log) false.
Proof.
  intros (Hids & Hkeys & Hincl & Hle & Hflag) Hnew Hin Heq.
  assert (Hpend : pending_ids (Dict.set rid t log) h' = []).
  { rewrite pending_ids_set. unfold pending_ids. rewrite Heq.
    fold (pending_ids log h).
    assert (Hp : In rid (pending_ids log h)) by now apply pending_ids_In.
    destruct (pending_ids log h) as [|x [|y l]]; simpl in *; [tauto| |lia].
    destruct Hp as [->|[]]. now rewrite String.eqb_refl. }
  unfold core_inv. rewrite Hpend, Heq, (dict_set_new _ _ _ Hnew).
  unfold Dict.keys. rewrite map_app. simpl. repeat split.
  - exact Hids.
  - apply NoDup_app; [exact Hkeys | repeat constructor; intros [] |].
    intros x Hx [<-|[]]. now apply dict_mem_false in Hnew.
  - intros x Hx. apply in_app_or in Hx. destruct Hx as [Hx|[<-|[]]]; auto.
  - simpl; lia.
  - congruence.
Qed.

Lemma core_inv_submit (h : list message) (log : PreferenceLog)
    (u c rid : string) (r : Responses) (a b : technique) :
  core_inv h log false ->
  ~ In rid (experiment_ids h) ->
  core_inv (h ++ [UserMsg u] ++ [ExperimentMsg c rid r a b]) log true.
Proof.
  intros (Hids & Hkeys & Hincl & Hle & Hflag) Hfresh.
  assert (Hnone : pending_ids log h = []).
  { destruct (pending_ids log h) eqn:E; [reflexivity|].
    discriminate Hflag. congruence. }
  unfold core_inv, pending_ids. rewrite !experiment_ids_app. simpl.
  rewrite filter_app. fold (pending_ids log h). rewrite Hnone. simpl.
  repeat split.
  - apply NoDup_app; [exact Hids | repeat constructor; intros [] |].
    intros x Hx [<-|[]]. contradiction.
  - exact Hkeys.
  - intros x Hx. apply in_or_app. left. now apply Hincl.
  - destruct (Dict.mem rid log); simpl; lia.
Qed.

(** ** The chat loop *)

Ltac chat_continue IH :=
  match goal with
  | H : match chat_vote ?c ?l ?h with _ => _ end = Some _ |- _ =>
      destruct (chat_vote c l h) as [[? ?]|] eqn:?; [|discriminate H];
      injection H as <- <-;
      destruct (IH _ _ eq_refl) as (rid0 & t0 & ? & ? & ? & ?);
      exists rid0, t0; simpl; repeat split; auto; congruence
  end.

(** A vote button that fires records one strategy for a turn that waited
    for a vote, and changes no identifier of the history. *)
Lemma chat_vote_Some (click : option Click) (log : PreferenceLog)
    (h h' : list message) (log' : PreferenceLog) :
  chat_vote click log h = Some (h', log') ->
  exists rid t,
    Dict.mem rid log = false /\ In rid (experiment_ids h) /\
    log' = Dict.set rid t log /\ experiment_ids h' = experiment_ids h.
Proof.
  revert h' log'. induction h as [|m h IH]; intros h' log' H; simpl in H.
  - discriminate.
  - destruct m as [c|c|c rid r a b].
    + chat_continue IH.
    + chat_continue IH.
    + destruct (Dict.mem rid log) eqn:Hmem; [chat_continue IH|].
      destruct click as [[| | |r0|r0]|]; try chat_continue IH.
      * destruct (String.eqb_spec r0 rid) as [->|Hne]; [|chat_continue IH].
        injection H as <- <-. exists rid, a. simpl. auto.
      * destruct (String.eqb_spec r0 rid) as [->|Hne]; [|chat_continue IH].
        injection H as <- <-. exists rid, b. simpl. auto.
Qed.

(** The button of a turn that waits for a vote fires for that turn when the
    identifiers of the history are pairwise different. *)
Lemma chat_vote_at (l : label) (log : PreferenceLog)
    (pre post : list message) (c rid : string) (r : Responses)
    (a b : technique) :
  NoDup (experiment_ids (pre ++ ExperimentMsg c rid r a b :: post)) ->
  Dict.mem rid log = false ->
  chat_vote (Some (click_of l rid)) log
            (pre ++ ExperimentMsg c rid r a b :: post)
  = Some ((pre ++
           ExperimentMsg (responses_get r (technique_of l a b)) rid r a b
             :: post)%list,
          Dict.set rid (technique_of l a b) log).
Proof.
  intros ND Hmem. induction pre as [|m pre IH]; simpl.
  - rewrite Hmem. destruct l; simpl; now rewrite String.eqb_refl.
  - assert (ND' : NoDup (experiment_ids (pre ++ ExperimentMsg c rid r a b :: post))).
    { destruct m; simpl in ND; auto. now inversion ND. }
    rewrite (IH ND').
    destruct m as [c'|c'|c' rid' r' a' b']; try reflexivity.
    assert (Hne : rid <> rid').
    { simpl in ND. inversion ND as [|? ? Hnotin _]; subst.
      intros <-. apply Hnotin. rewrite experiment_ids_app. apply in_or_app.
      right. simpl. now left. }
    destruct (Dict.mem rid' log); [reflexivity|].
    destruct l; simpl; destruct (String.eqb_spec rid rid');
      try contradiction; reflexivity.
Qed.

(** ** One pass of the script *)

Lemma submit_message_Some (env : Env) (inp : Inputs) (p : UserProfile)
    (s s' : Session) (w w' : World) :
  submit_message env inp p s w = Some (s', w') ->
  ss_current_message_processed s = false /\
  PyStr.truthy (user_input inp) = true /\
  (exists r a b,
     ss_conversation_history s'
     = (ss_conversation_history s ++ [UserMsg (user_input inp)]
          ++ [ExperimentMsg "" (uuid_response inp) r a b])%list) /\
  ss_preferred_technique s' = ss_preferred_technique s /\
  ss_current_message_processed s' = true /\
  ss_onboarding_complete s' = ss_onboarding_complete s /\
  ss_user_profile s' = ss_user_profile s.
Proof.
  unfold submit_message.
  destruct (PyStr.truthy (user_input inp)); simpl; [|discriminate].
  destruct (ss_current_message_processed s); simpl; [discriminate|].
  destruct (get_completion env _ (user_input inp) w) as [r1 w1].
  destruct (get_completion env _ (user_input inp) w1) as [r2 w2].
  destruct (shuffle_swaps inp); intros [= <- <-]; simpl;
    rewrite <- app_assoc; simpl; repeat split; eauto.
Qed.

Lemma submit_message_flag (env : Env) (inp : Inputs) (p : UserProfile)
    (s : Session) (w : World) :
  ss_current_message_processed s = true ->
  submit_message env inp p s w = None.
Proof.
  unfold submit_message. intros ->. now rewrite andb_false_r.
Qed.

Lemma idle_nudge_spec (inp : Inputs) (p : UserProfile) (s : Session) :
  let s' := idle_nudge inp p s in
  (ss_conversation_history s' = ss_conversation_history s \/
   exists text,
     ss_conversation_history s'
     = (ss_conversation_history s ++ [AssistantMsg text])%list) /\
  ss_preferred_technique s' = ss_preferred_technique s /\
  ss_current_message_processed s' = ss_current_message_processed s /\
  ss_onboarding_complete s' = ss_onboarding_complete s /\
  ss_user_profile s' = ss_user_profile s.
Proof.
  unfold idle_nudge.
  destruct (negb (Qle_bool _ 60)); [|simpl; tauto].
  destruct (match ss_last_engagement_time s with
            | None => true | Some t => _ end); simpl; [|tauto].
  repeat split. right. eauto.
Qed.

Lemma idle_nudge_ids (inp : Inputs) (p : UserProfile) (s : Session) :
  experiment_ids (ss_conversation_history (idle_nudge inp p s))
  = experiment_ids (ss_conversation_history s).
Proof.
  destruct (idle_nudge_spec inp p s) as ([E|[text E]] & _); rewrite E.
  - reflexivity.
  - rewrite experiment_ids_app. simpl. apply app_nil_r.
Qed.

Lemma chat_and_input_inv (env : Env) (inp : Inputs) (p : UserProfile)
    (s : Session) (w : World) :
  session_inv s -> fresh_uuid inp s ->
  session_inv (fst (chat_and_input env inp p s w)).
Proof.
  intros [Hcore Hprof] Hfresh. unfold chat_and_input.
  destruct (chat_vote _ _ _) as [[h' l']|] eqn:Hvote.
  - apply chat_vote_Some in Hvote.
    destruct Hvote as (rid & t & Hmem & Hin & -> & Hids).
    split; simpl; [|exact Hprof].
    eapply core_inv_vote; eauto.
  - destruct (submit_message env inp p s w) as [[s' w']|] eqn:Hsub.
    + apply submit_message_Some in Hsub.
      destruct Hsub as (Hflag & _ & (r & a & b & Hh) & Hl & Hc & Ho & Hp).
      split; simpl.
      * rewrite Hh, Hl, Hc. apply core_inv_submit; [|exact Hfresh].
        now rewrite <- Hflag.
      * now rewrite Ho, Hp.
    + simpl. destruct (idle_nudge_spec inp p s) as (_ & Hl & Hc & Ho & Hp).
      split.
      * rewrite Hl, Hc. eapply core_inv_ids; [apply idle_nudge_ids | exact Hcore].
      * now rewrite Ho, Hp.
Qed.

Lemma main_preserves_inv (env : Env) (inp : Inputs) (s : Session) (w : World) :
  session_inv s -> fresh_uuid inp s -> session_inv (fst (main env inp s w)).
Proof.
  intros Hinv Hfresh. pose proof Hinv as [Hcore Hprof]. unfold main.
  destruct (negb (env_truthy (OPENAI_API_KEY env))); [exact Hinv|].
  destruct (negb (ss_onboarding_complete s)) eqn:Honb.
  - destruct (click inp) as [[| | | |]|]; try exact Hinv.
    destruct (negb (PyStr.truthy _)); [exact Hinv|].
    split; simpl; [exact Hcore | discriminate].
  - destruct (ss_user_profile s) as [profile|] eqn:Hp; [|exact Hinv].
    set (history := welcome_if_empty profile (ss_conversation_history s)).
    assert (Hids : experiment_ids history
                   = experiment_ids (ss_conversation_history s)).
    { subst history. now destruct (ss_conversation_history s). }
    assert (Hcore1 : core_inv history (ss_preferred_technique s)
                       (ss_current_message_processed s))
      by (eapply core_inv_ids; eauto).
    set (s1 := mkSession _ history _ _ _ _ _ _ _ _).
    assert (Hinv1 : session_inv s1).
    { split; simpl; [exact Hcore1|]. rewrite ?Hp. discriminate. }
    assert (Hfresh1 : fresh_uuid inp s1).
    { unfold fresh_uuid; simpl. now rewrite Hids. }
    destruct (click inp) as [[| | | |]|] eqn:Hclick;
      try (apply chat_and_input_inv; assumption).
    + split; simpl; [exact Hcore1 | discriminate].
    + unfold save_and_end.
      destruct (save_conversation _ _ _ _ _ _ _ _ _ _) as [[r|e] w'];
        simpl; [|exact Hinv1].
      split; simpl; [apply core_inv_reset | discriminate].
Qed.

Lemma initial_session_inv (cid uid : string) (t : Q) :
  session_inv (initial_session cid uid t).
Proof. split; simpl; [apply core_inv_reset | discriminate]. Qed.

(** Every session of a run satisfies the invariant. *)
Lemma run_inv (env : Env) (s : Session) (w : World) :
  run env s w -> session_inv s.
Proof.
  induction 1 as [cid uid t w|inp s w _ IH Hfresh].
  - apply initial_session_inv.
  - now apply main_preserves_inv.
Qed.

(** ** The experiment loop *)

Lemma chat_vote_no_click (log : PreferenceLog) (h : list message) :
  chat_vote None log h = None.
Proof.
  induction h as [|m h IH]; simpl; [reflexivity|].
  rewrite IH. destruct m; try reflexivity.
  now destruct (Dict.mem _ log).
Qed.

Lemma last_assistant_pending_ids (log : PreferenceLog) (h : list message) :
  last_assistant_pending log h = true -> pending_ids log h <> [].
Proof.
  unfold pending_ids. induction h as [|m h IH]; simpl; [discriminate|].
  destruct (existsb _ h).
  - intro H. specialize (IH H). destruct m; simpl; auto.
    destruct (negb (Dict.mem _ log)); [discriminate | exact IH].
  - destruct m; try discriminate. simpl. intros ->. discriminate.
Qed.

Lemma run_sample_p2 : run Sample.env (fst Sample.p2) (snd Sample.p2).
Proof.
  unfold Sample.p2. apply run_pass.
  - unfold Sample.p1. apply run_pass; [apply run_init|].
    unfold fresh_uuid. simpl. tauto.
  - unfold fresh_uuid. vm_compute. tauto.
Qed.

(** C3: in a run of the program at most one turn waits for a vote, and
    while the most recent assistant turn waits for its vote a pass that
    brings a typed message (and no button) appends no user turn and leaves
    the turns that wait for a vote as they are. *)
Theorem single_pending_turn (env : Env) (s : Session) (w : World)
    (inp : Inputs) :
  run env s w ->
  last_assistant_pending (ss_preferred_technique s)
    (ss_conversation_history s) = true ->
  click inp = None ->
  let s' := fst (main env inp s w) in
  List.length (pending_ids (ss_preferred_technique s)
                 (ss_conversation_history s)) <= 1 /\
  filter is_user (ss_conversation_history s')
    = filter is_user (ss_conversation_history s) /\
  pending_ids (ss_preferred_technique s') (ss_conversation_history s')
    = pending_ids (ss_preferred_technique s) (ss_conversation_history s).
Proof.
  intros Hrun Hlast Hclick.
  destruct (run_inv _ _ _ Hrun) as [(_ & _ & _ & Hle & Hflag) _].
  apply last_assistant_pending_ids in Hlast.
  specialize (Hflag Hlast). cbv zeta. split; [exact Hle|].
  unfold main. rewrite Hclick.
  destruct (negb (env_truthy _)); [auto|].
  destruct (negb (ss_onboarding_complete s)); [auto|].
  destruct (ss_user_profile s) as [profile|]; [|auto].
  assert (Hh : welcome_if_empty profile (ss_conversation_history s)
               = ss_conversation_history s).
  { destruct (ss_conversation_history s); [|reflexivity].
    exfalso. now apply Hlast. }
  unfold chat_and_input. simpl. rewrite Hclick, Hh, chat_vote_no_click.
  rewrite submit_message_flag by exact Hflag. simpl.
  match goal with |- context [idle_nudge inp profile ?s1] =>
    destruct (idle_nudge_spec inp profile s1) as (Hn & Hl & _);
    pose proof (idle_nudge_ids inp profile s1) as Hi
  end.
  simpl in *. unfold pending_ids. rewrite Hl, Hi. split; [|reflexivity].
  destruct Hn as [->|[text ->]]; [reflexivity|].
  rewrite filter_app. simpl. apply app_nil_r.
Qed.

Lemma single_pending_turn_witness :
  let s := fst Sample.p2 in
  let s' := fst (main Sample.env (Sample.inputs None "one more" "r9") s
                   (snd Sample.p2)) in
  filter is_user (ss_conversation_history s')
    = filter is_user (ss_conversation_history s).
Proof.
  apply (single_pending_turn Sample.env (fst Sample.p2) (snd Sample.p2)
           (Sample.inputs None "one more" "r9")).
  - exact run_sample_p2.
  - vm_compute. reflexivity.
  - reflexivity.
Defined.

(** C5: in a run of the program, a press on the button of either label of a
    turn that waits for a vote adds exactly one entry to the log, from the
    identifier of the turn to the strategy behind the label; the content of
    the turn becomes the text of that strategy; both candidate texts stay
    in the turn, and the chat then shows the chosen text alone for it. *)
Theorem vote_resolves_turn (env : Env) (s : Session) (w : World)
    (inp : Inputs) (l : label) (pre post : list message) (c rid : string)
    (r : Responses) (a b : technique) :
  run env s w ->
  env_truthy (OPENAI_API_KEY env) = true ->
  ss_onboarding_complete s = true ->
  ss_conversation_history s
    = (pre ++ ExperimentMsg c rid r a b :: post)%list ->
  Dict.mem rid (ss_preferred_technique s) = false ->
  click inp = Some (click_of l rid) ->
  let t := technique_of l a b in
  let turn' := ExperimentMsg (responses_get r t) rid r a b in
  let s' := fst (main env inp s w) in
  ss_preferred_technique s' = (ss_preferred_technique s ++ [(rid, t)])%list /\
  Dict.get rid (ss_preferred_technique s') = Some t /\
  (forall k, k <> rid ->
     Dict.get k (ss_preferred_technique s')
     = Dict.get k (ss_preferred_technique s)) /\
  ss_conversation_history s' = (pre ++ turn' :: post)%list /\
  display_message (ss_preferred_technique s') turn'
    = ["**BestieAI:** " ++ responses_get r t].
Proof.
  intros Hrun Hkey Honb Hh Hmem Hclick.
  destruct (run_inv _ _ _ Hrun) as [(Hids & _) Hprof].
  specialize (Hprof Honb). cbv zeta.
  assert (Hmain : fst (main env inp s w)
    = mkSession (ss_user_profile s)
        (pre ++ ExperimentMsg (responses_get r (technique_of l a b)) rid r a b
           :: post)
        (ss_conversation_id s) (ss_user_id s)
        (Dict.set rid (technique_of l a b) (ss_preferred_technique s))
        (ss_onboarding_complete s) false (ss_last_interaction_time s)
        (ss_last_engagement_time s) (ss_input_key s)).
  { unfold main. rewrite Hkey, Honb. simpl.
    destruct (ss_user_profile s) as [profile|]; [|contradiction].
    assert (Hw : welcome_if_empty profile (ss_conversation_history s)
                 = ss_conversation_history s).
    { rewrite Hh. now destruct pre. }
    rewrite Hw. rewrite Hh in Hids.
    assert (Hsel : match click inp with
                   | Some UpdateProfile | Some SaveAndEnd => false
                   | _ => true
                   end = true) by (rewrite Hclick; now destruct l).
    destruct (click inp) as [[| | | |]|] eqn:Hc; try discriminate Hsel;
      unfold chat_and_input; cbn [ss_preferred_technique ss_conversation_history];
      rewrite Hc, Hclick, Hh, chat_vote_at by assumption; reflexivity. }
  rewrite Hmain. simpl.
  rewrite dict_get_set_same. repeat split.
  - now apply dict_set_new.
  - intros k Hk. now apply dict_get_set_other.
Qed.

Lemma vote_resolves_turn_witness :
  Dict.get "r1" (ss_preferred_technique (fst Sample.p3)) = Some conditional.
Proof.
  refine (proj1 (proj2
    (vote_resolves_turn Sample.env (fst Sample.p2) (snd Sample.p2)
       (Sample.inputs (Some (PreferB "r1")) "" "r2") OptionB
       [AssistantMsg "Hi Ann! I'm BestieAI, your friendly companion. What's on your mind today?";
        UserMsg "I'm nervous about my trip tomorrow"]
       [] "" "r1" (mkResponses "reply one" "reply two")
       dynamic_context conditional
       run_sample_p2 _ _ _ _ _))); vm_compute; reflexivity.
Defined.

(** ** The tally of [save_conversation] *)

Lemma tc_get_set_same (t : technique) (n : nat) (c : TechCounts) :
  tc_get t (tc_set t n c) = n.
Proof.
  induction c as [|[t' n'] c IH]; simpl.
  - now rewrite technique_eqb_refl.
  - destruct (technique_eqb t t') eqn:E; simpl; rewrite E; auto.
Qed.

Lemma tc_get_set_other (t t' : technique) (n : nat) (c : TechCounts) :
  t <> t' -> tc_get t (tc_set t' n c) = tc_get t c.
Proof.
  intro Hne. induction c as [|[t0 n0] c IH]; simpl.
  - destruct (technique_eqb t t') eqn:E; [|reflexivity].
    apply technique_eqb_eq in E. contradiction.
  - destruct (technique_eqb t' t0) eqn:E'; simpl.
    + apply technique_eqb_eq in E'. subst t0.
      destruct (technique_eqb t t') eqn:E; [|reflexivity].
      apply technique_eqb_eq in E. contradiction.
    + now rewrite IH.
Qed.

Lemma tc_mem_get (t : technique) (c : TechCounts) :
  tc_mem t c = false -> tc_get t c = 0.
Proof.
  induction c as [|[t' n'] c IH]; simpl; [reflexivity|].
  destruct (technique_eqb t t'); [discriminate | exact IH].
Qed.

Lemma tally_step_get (t t' : technique) (c : TechCounts) :
  let c1 := if tc_mem t' c then c else tc_set t' 0 c in
  tc_get t (tc_set t' (tc_get t' c1 + 1) c1)
  = tc_get t c + (if technique_eqb t t' then 1 else 0).
Proof.
  cbv zeta.
  assert (H1 : forall x,
    tc_get x (if tc_mem t' c then c else tc_set t' 0 c) = tc_get x c).
  { intro x. destruct (tc_mem t' c) eqn:Em; [reflexivity|].
    destruct (technique_eqb x t') eqn:E.
    - apply technique_eqb_eq in E. subst x.
      now rewrite tc_get_set_same, tc_mem_get.
    - apply tc_get_set_other. intros ->.
      now rewrite technique_eqb_refl in E. }
  destruct (technique_eqb t t') eqn:E.
  - apply technique_eqb_eq in E. subst t'.
    now rewrite tc_get_set_same, H1.
  - rewrite tc_get_set_other, H1; [lia|].
    intros ->. now rewrite technique_eqb_refl in E.
Qed.

Lemma tally_history_acc (log : PreferenceLog) (h : list message)
    (c : TechCounts) (n : nat) :
  let r := fold_left
    (fun (acc : TechCounts * nat) message =>
       let '(counts, total_responses) := acc in
       match message with
       | ExperimentMsg _ response_id _ _ _ =>
           match Dict.get response_id log with
           | Some technique =>
               let counts :=
                 if tc_mem technique counts then counts
                 else tc_set technique 0 counts in
               (tc_set technique (tc_get technique counts + 1) counts,
                total_responses + 1)
           | None => acc
           end
       | _ => acc
       end) h (c, n) in
  snd r = n + List.length (rated_of log (experiment_ids h)) /\
  forall t, tc_get t (fst r)
            = tc_get t c + occurrences t (rated_of log (experiment_ids h)).
Proof.
  revert c n. induction h as [|m h IH]; intros c n; cbv zeta; simpl.
  - unfold occurrences; simpl. split; [|intro t]; lia.
  - destruct m as [u|a|content rid r a b]; try apply IH.
    simpl. destruct (Dict.get rid log) as [t'|]; [|apply IH].
    destruct (IH (tc_set t' (tc_get t'
                    (if tc_mem t' c then c else tc_set t' 0 c) + 1)
                    (if tc_mem t' c then c else tc_set t' 0 c)) (n + 1))
      as [Hn Hc].
    cbv zeta in Hn, Hc. split.
    + rewrite Hn. simpl. lia.
    + intro t. rewrite Hc, tally_step_get. unfold occurrences. simpl.
      destruct (technique_eqb t t'); simpl; lia.
Qed.

(** What the first loop of [save_conversation] computes: the number of
    rated turns, and for each strategy the number of rated turns for which
    the log holds it. *)
Lemma tally_history_spec (log : PreferenceLog) (h : list message) :
  snd (tally_history h log) = List.length (rated_of log (experiment_ids h)) /\
  forall t, tc_get t (fst (tally_history h log))
            = occurrences t (rated_of log (experiment_ids h)).
Proof.
  unfold tally_history.
  destruct (tally_history_acc log h [] 0) as [Hn Hc]. cbv zeta in Hn, Hc.
  split; [exact Hn | intro t; exact (Hc t)].
Qed.

(** ** The rated turns and the log *)

Lemma rated_of_app (log : PreferenceLog) (l1 l2 : list string) :
  rated_of log (l1 ++ l2) = (rated_of log l1 ++ rated_of log l2)%list.
Proof. unfold rated_of. apply flat_map_app. Qed.

Lemma rated_of_empty_log (ids : list string) : rated_of [] ids = [].
Proof. induction ids as [|i ids IH]; simpl; auto. Qed.

Lemma rated_of_cons_notin (k : string) (v : technique) (log : PreferenceLog)
    (ids : list string) :
  ~ In k ids -> rated_of ((k, v) :: log) ids = rated_of log ids.
Proof.
  induction ids as [|i ids IH]; simpl; [reflexivity|].
  intro Hnotin. destruct (String.eqb_spec i k) as [->|Hne].
  - exfalso. apply Hnotin. now left.
  - rewrite IH by tauto. reflexivity.
Qed.

(** With pairwise different identifiers and a log whose keys are
    identifiers of the history, the rated turns are the entries of the log
    up to their order. *)
Lemma rated_of_perm (log : PreferenceLog) (ids : list string) :
  NoDup ids -> NoDup (Dict.keys log) -> incl (Dict.keys log) ids ->
  Permutation (rated_of log ids) (Dict.values log).
Proof.
  revert ids. induction log as [|[k v] log IH]; intros ids Hids Hkeys Hincl.
  - rewrite rated_of_empty_log. constructor.
  - simpl in Hkeys. inversion Hkeys as [|? ? Hk Hkeys']; subst.
    destruct (in_split k ids) as (l1 & l2 & ->); [apply Hincl; now left|].
    destruct (NoDup_remove _ _ _ Hids) as [Hids' Hnotin].
    rewrite rated_of_app. simpl. rewrite String.eqb_refl. simpl.
    fold (rated_of ((k, v) :: log) l2).
    rewrite !rated_of_cons_notin
      by (intro H; apply Hnotin; apply in_or_app; auto).
    apply Permutation_sym, Permutation_cons_app, Permutation_sym.
    rewrite <- rated_of_app. apply IH; auto.
    intros x Hx. assert (Hin : In x (l1 ++ k :: l2)) by (apply Hincl; now right).
    apply in_app_or in Hin. apply in_or_app.
    destruct Hin as [H|[<-|H]]; auto. contradiction.
Qed.

Lemma occurrences_perm (t : technique) (l l' : list technique) :
  Permutation l l' -> occurrences t l = occurrences t l'.
Proof.
  unfold occurrences. induction 1; simpl; auto.
  - destruct (technique_eqb t x); simpl; auto.
  - destruct (technique_eqb t x), (technique_eqb t y); reflexivity.
  - congruence.
Qed.

Lemma tally_history_empty_log (h : list message) :
  tally_history h [] = ([], 0).
Proof.
  unfold tally_history. induction h as [|m h IH]; simpl; [reflexivity|].
  destruct m; exact IH.
Qed.

(** In a session that satisfies the invariant, the loop of
    [save_conversation] counts the entries of the log. *)
Lemma tally_history_log (h : list message) (log : PreferenceLog) (b : bool) :
  core_inv h log b ->
  snd (tally_history h log) = List.length log /\
  forall t, tc_get t (fst (tally_history h log)) = votes_for t log.
Proof.
  intros (Hids & Hkeys & Hincl & _).
  pose proof (rated_of_perm log _ Hids Hkeys Hincl) as Hperm.
  destruct (tally_history_spec log h) as [Hn Hc]. split.
  - rewrite Hn, (Permutation_length Hperm). unfold Dict.values.
    apply length_map.
  - intro t. rewrite Hc. now apply occurrences_perm.
Qed.

(** ** Percentages *)

Open Scope Q_scope.

Lemma percentage_zero_total (count : nat) : percentage count 0 = 0.
Proof. reflexivity. Qed.

Lemma inject_nat_pos (n : nat) : (0 < n)%nat -> ~ inject_Z (Z.of_nat n) == 0.
Proof.
  intros Hn E. unfold Qeq in E. simpl in E. lia.
Qed.

Lemma percentage_value (count total : nat) :
  (0 < total)%nat ->
  percentage count total
  == 100 * inject_Z (Z.of_nat count) / inject_Z (Z.of_nat total).
Proof.
  intro Hn. unfold percentage.
  destruct (Nat.ltb_spec 0 total) as [_|]; [|lia].
  field. now apply inject_nat_pos.
Qed.

Lemma percentage_sum (a b total : nat) :
  (0 < total)%nat -> (a + b = total)%nat ->
  percentage a total + percentage b total == 100.
Proof.
  intros Hn Hsum. rewrite !percentage_value by exact Hn.
  rewrite <- Hsum, Nat2Z.inj_add, inject_Z_plus.
  field. rewrite <- inject_Z_plus, <- Nat2Z.inj_add, Hsum.
  now apply inject_nat_pos.
Qed.

Lemma pct_get_percentages (t : technique) (c : TechCounts) (total : nat) :
  pct_get t (technique_percentages c total)
  == percentage (tc_get t c) total.
Proof.
  induction c as [|[t' n] c IH]; simpl.
  - unfold percentage. destruct (0 <? total)%nat; [|reflexivity].
    simpl. unfold Qdiv. ring.
  - destruct (technique_eqb t t'); [reflexivity | exact IH].
Qed.

(** C2: in a run of the program, the loop of [save_conversation] counts
    N, the number of entries of the preference log; for N > 0 the
    percentage it computes for each of the two strategies is 100 times the
    number of entries with that strategy over N, and the two percentages
    add up to 100; for N = 0 both percentages are 0 and nothing is divided.
    The percentages are exact rationals here; the program rounds each
    operation to a float. *)
Theorem saved_percentages (env : Env) (s : Session) (w : World) :
  run env s w ->
  let log := ss_preferred_technique s in
  let N := List.length log in
  let tally := tally_history (ss_conversation_history s) log in
  let pct t := pct_get t (technique_percentages (fst tally) (snd tally)) in
  snd tally = N /\
  (forall t, (0 < N)%nat ->
     pct t == 100 * inject_Z (Z.of_nat (votes_for t log))
              / inject_Z (Z.of_nat N)) /\
  ((0 < N)%nat -> pct conditional + pct dynamic_context == 100) /\
  (N = 0%nat -> pct conditional = 0 /\ pct dynamic_context = 0).
Proof.
  intro Hrun. destruct (run_inv _ _ _ Hrun) as [Hcore _]. cbv zeta.
  destruct (tally_history_log _ _ _ Hcore) as [Hn Hc].
  split; [exact Hn|]. split; [|split].
  - intros t Hpos. rewrite pct_get_percentages, Hn, Hc.
    now apply percentage_value.
  - intro Hpos. rewrite !pct_get_percentages, Hn, !Hc.
    apply percentage_sum; [exact Hpos | apply votes_total].
  - intro Hz. destruct (ss_preferred_technique s); [|discriminate].
    now rewrite tally_history_empty_log.
Qed.

Close Scope Q_scope.

Lemma run_sample_p3 : run Sample.env (fst Sample.p3) (snd Sample.p3).
Proof.
  unfold Sample.p3. apply run_pass; [exact run_sample_p2|].
  unfold fresh_uuid. vm_compute. intros [H|[]]. discriminate.
Qed.

Lemma saved_percentages_witness :
  let s := fst Sample.p3 in
  let tally := tally_history (ss_conversation_history s)
                 (ss_preferred_technique s) in
  snd tally = 1 /\
  (pct_get conditional (technique_percentages (fst tally) (snd tally))
   == 100)%Q.
Proof.
  pose proof (saved_percentages Sample.env (fst Sample.p3) (snd Sample.p3)
                run_sample_p3) as H.
  cbv zeta in H. destruct H as (Hn & Hpct & _ & _).
  split; [exact Hn|].
  rewrite (Hpct conditional) by (vm_compute; lia).
  vm_compute. reflexivity.
Defined.

(** ** Completion gateway *)

(** C6, as the claim words it, fails: with no credential a pass that brings
    a message to an onboarded session appends no turn at all, and no pass
    from any session completes a turn with the error text in place of a
    reply. *)
Lemma no_credential_turn_counterexample :
  client Sample.env_no_key = false /\
  ~ turn_completes_with_error Sample.env_no_key
      (Sample.inputs None "hello" "r1") (fst Sample.p1) Sample.world /\
  ~ (exists inp s w, turn_completes_with_error Sample.env_no_key inp s w).
Proof.
  split; [reflexivity|]. split.
  - intros (a & b & H). vm_compute in H. discriminate H.
  - intros (inp & s & w & a & b & H). simpl in H.
    apply (f_equal (@List.length message)) in H.
    rewrite length_app in H. simpl in H. lia.
Qed.

(** C6, amended: with no credential [get_completion] gives the
    configuration error text at once, sends no request and raises nothing,
    and the step that builds a turn would put that text in both candidate
    slots without a request; [main], however, stops every pass at its
    credential check before the chat, so no turn is started and the session
    is left as it was. *)
Theorem no_credential_completion (env : Env) (system_prompt user_message : string)
    (inp : Inputs) (s : Session) (w : World) :
  client env = false ->
  get_completion env system_prompt user_message w = (NO_KEY_ERROR, w) /\
  fst (main env inp s w) = s /\
  api_calls (snd (main env inp s w)) = api_calls w /\
  (forall p,
     PyStr.truthy (user_input inp) = true ->
     ss_current_message_processed s = false ->
     exists s' a b,
       submit_message env inp p s w = Some (s', w) /\
       ss_conversation_history s'
       = (ss_conversation_history s ++
          [UserMsg (user_input inp);
           ExperimentMsg "" (uuid_response inp)
             (mkResponses NO_KEY_ERROR NO_KEY_ERROR) a b])%list).
Proof.
  intro Hc.
  assert (Hg : forall sp um w0, get_completion env sp um w0 = (NO_KEY_ERROR, w0)).
  { intros. unfold get_completion. now rewrite Hc. }
  split; [apply Hg|].
  unfold main. unfold client in Hc. rewrite Hc. simpl.
  split; [reflexivity|]. split; [reflexivity|].
  intros p Hin Hflag. unfold submit_message.
  rewrite Hin, Hflag, !Hg. simpl.
  destruct (shuffle_swaps inp); do 3 eexists; split; try reflexivity;
    simpl; now rewrite <- app_assoc.
Qed.

Lemma no_credential_completion_witness :
  get_completion Sample.env_no_key "system" "hello" Sample.world
  = (NO_KEY_ERROR, Sample.world).
Proof.
  exact (proj1 (no_credential_completion Sample.env_no_key "system" "hello"
                  (Sample.inputs None "hello" "r1") Sample.s0 Sample.world
                  eq_refl)).
Defined.

(** With a credential every call sends exactly one request, and an
    exception of the service comes back as a text. *)
Lemma get_completion_with_client (env : Env) (sp um : string) (w : World) :
  client env = true ->
  api_calls (snd (get_completion env sp um w))
  = (api_calls w ++ [mkRequest "gpt-4o-mini" sp um 400])%list.
Proof.
  intro Hc. unfold get_completion. rewrite Hc. simpl.
  now destruct (completion env _).
Qed.

(** ** Session store *)

Lemma json_written {A} (files : list (string * A)) (filename : string)
    (content : A) :
  In (filename, content) (write_file filename content files).
Proof. unfold write_file. apply in_or_app. right. now left. Qed.

Lemma write_file_others {A} (files : list (string * A))
    (filename f : string) (content c : A) :
  f <> filename ->
  (In (f, c) (write_file filename content files) <-> In (f, c) files).
Proof.
  intro Hne. unfold write_file. rewrite in_app_iff, filter_In. simpl.
  split.
  - intros [[H _]|[[= <- _]|[]]]; [exact H | contradiction].
  - intro H. left. split; [exact H|].
    destruct (String.eqb_spec filename f); [congruence | reflexivity].
Qed.

(** The state of the files after both writes of [save_conversation] went
    through. *)
Lemma persisted_after_writes (env : Env) (w w3 : World) (cid : string)
    (data : JsonDoc) (df : list CsvRow) (row : CsvRow) :
  j_conversation_id data = cid -> c_conversation_id row = cid ->
  json_files w3
  = write_file (conversation_filename cid) (Complete data) (json_files w) ->
  csv_file w3 = Some (Complete (df ++ [row])%list) ->
  persisted cid w3.
Proof.
  intros Hd Hr Hj Hc. unfold persisted. rewrite Hj, Hc. split.
  - exists data. split; [apply json_written | exact Hd].
  - exists df, row. auto.
Qed.

(** The part of the delivery that the [try] of [send_email] covers: with a
    port that is a number and attachments that can be read, a session with
    the relay that raises, or a sender credential that is missing, comes
    back as the flag [False] next to the file name, and the document and
    the row stay on disk; with no recipient configured nothing is handed to
    the relay and the call returns the file name. *)
Lemma smtp_failure_is_flag (env : Env) (log : PreferenceLog)
    (p : UserProfile) (cid uid : string) (h : list message)
    (pt : option technique) (fb : string) (w : World) :
  makedirs env = None -> json_dump env = None -> csv_write env = None ->
  csv_readable env w ->
  let r := save_conversation env log (Some p) cid uid h pt fb true w in
  (env_truthy (ADMIN_EMAIL env) = true ->
   (exists n, smtp_port env = Returned n) ->
   attachments_readable env ->
   (env_truthy (EMAIL_USERNAME env) && env_truthy (EMAIL_PASSWORD env)
    && match smtp_send env with None => true | Some _ => false end)%bool
   = false ->
   fst r = Returned (SaveFileEmail (conversation_filename cid) false) /\
   persisted cid (snd r)) /\
  (env_truthy (ADMIN_EMAIL env) = false ->
   fst r = Returned (SaveFile (conversation_filename cid)) /\
   persisted cid (snd r) /\
   smtp_connections (snd r) = smtp_connections w /\
   delivered (snd r) = delivered w /\
   errors_shown (snd r) = errors_shown w).
Proof.
  intros Hmk Hjson Hcsv Hread. cbv zeta. unfold save_conversation.
  destruct (tally_history h log) as [counts total].
  rewrite Hmk, Hjson, Hcsv. fold (conversation_filename cid).
  set (data := mkJson cid uid h pt _ _ _ _ _).
  set (row := mkRow cid uid pt _ _ _ _ _ _ _).
  set (w1 := with_json_files w _).
  assert (Hdf : exists df,
    match csv_file w1 with
    | Some content =>
        match read_csv env content with
        | Returned df => Returned (df ++ [row])%list
        | Raised e => Raised e
        end
    | None => Returned [row]
    end = Returned (df ++ [row])%list).
  { unfold csv_readable in Hread. subst w1. cbn [csv_file with_json_files].
    destruct (csv_file w) as [content|]; [|exists []; reflexivity].
    destruct Hread as [rows ->]. now exists rows. }
  destruct Hdf as [df ->].
  set (w2 := with_csv_file w1 _).
  assert (Hpers : forall w3, json_files w3 = json_files w2 ->
                             csv_file w3 = csv_file w2 -> persisted cid w3).
  { intros w3 Hj Hc.
    apply (persisted_after_writes env w w3 cid data df row); auto. }
  split.
  - intros Hadmin [n Hport] Hatt Hfail.
    destruct (ADMIN_EMAIL env) as [admin|]; [|discriminate]. simpl in Hadmin.
    rewrite Hadmin. unfold send_email. rewrite Hport.
    destruct (env_truthy (EMAIL_USERNAME env)); cbn [negb orb];
      [|split; [reflexivity | now apply Hpers]].
    destruct (env_truthy (EMAIL_PASSWORD env)); cbn [negb orb];
      [|split; [reflexivity | now apply Hpers]].
    assert (Hfe : forall l, first_error (attachment_read env) l = None).
    { induction l as [|x l IH]; simpl; [reflexivity|]. now rewrite Hatt. }
    rewrite Hfe.
    destruct (smtp_send env) as [f|]; [|discriminate Hfail].
    cbn [fst snd]. split; [reflexivity|].
    apply Hpers; now destruct (sf_after_send f).
  - intro Hadmin.
    assert (E : match ADMIN_EMAIL env with
                | Some a => PyStr.truthy a | None => false end = false)
      by exact Hadmin.
    destruct (ADMIN_EMAIL env) as [admin|]; [rewrite E|]; cbn [fst snd];
      (split; [reflexivity|]); (split; [now apply Hpers|]);
      repeat split.
Qed.

(** C7: with a recipient configured and a port of the relay that is no
    number, the save with the report asked for does not come back with a
    flag: it raises, after the document and the row have been written, and
    before anything is handed to the relay. *)
Theorem report_with_bad_port_raises :
  let r := save_conversation Sample.env_bad_port [("r1", conditional)]
             (Some Sample.profile) "conv-1" "user-1"
             [UserMsg "hi"] (Some conditional) "fine" true Sample.world in
  fst r = Raised "invalid literal for int()" /\
  persisted "conv-1" (snd r) /\
  smtp_connections (snd r) = [].
Proof.
  cbv zeta. split; [reflexivity|]. split; [|reflexivity].
  split.
  - eexists. split; [simpl; left; reflexivity | reflexivity].
  - exists []. eexists. split; reflexivity.
Qed.

Lemma send_email_files (env : Env) (to subject body : string)
    (att : list string) (w : World) :
  json_files (snd (send_email env to subject body att w)) = json_files w.
Proof.
  unfold send_email. destruct (smtp_port env); [|reflexivity].
  destruct (negb _ || negb _)%bool; [reflexivity|].
  destruct (first_error _ _); [reflexivity|].
  destruct (smtp_send env) as [f|]; [|reflexivity].
  now destruct (sf_after_send f).
Qed.

(** C10: when the document of the conversation cannot be written,
    [save_conversation] returns [None] at once: no row is added to the
    summary table and nothing is handed to the mail relay; no complete
    document appears, and the documents of other conversations are as they
    were. When the directory cannot be made the call raises and touches
    nothing. Whenever the table or the mail relay was touched, the document
    had been written before. *)
Theorem json_failure_stops_save (env : Env) (log : PreferenceLog)
    (profile : option UserProfile) (cid uid : string) (h : list message)
    (pt : option technique) (fb : string) (send_email_report : bool)
    (w : World) :
  let r := save_conversation env log profile cid uid h pt fb
             send_email_report w in
  (json_dump env <> None -> makedirs env = None ->
   fst r = Returned SaveNone /\
   (forall f data, In (f, Complete data) (json_files (snd r)) ->
                   In (f, Complete data) (json_files w)) /\
   (forall f c, f <> conversation_filename cid ->
      (In (f, c) (json_files (snd r)) <-> In (f, c) (json_files w))) /\
   csv_file (snd r) = csv_file w /\
   smtp_connections (snd r) = smtp_connections w /\
   delivered (snd r) = delivered w) /\
  (makedirs env <> None -> snd r = w) /\
  (csv_file (snd r) <> csv_file w \/
   smtp_connections (snd r) <> smtp_connections w ->
   makedirs env = None /\ json_dump env = None /\
   exists data,
     In (conversation_filename cid, Complete data) (json_files (snd r))).
Proof.
  cbv zeta. unfold save_conversation.
  destruct (tally_history h log) as [counts total].
  fold (conversation_filename cid).
  destruct (makedirs env) as [e0|]; cbn [fst snd].
  { split; [intros _ H; discriminate H|]. split; [reflexivity|].
    intros [H|H]; now destruct H. }
  split; [|split; [intro H; now destruct H|]].
  - intros Hj _. destruct (json_dump env) as [f|]; [|now destruct Hj].
    cbn [fst snd]. split; [reflexivity|].
    destruct (wf_after_open f); cbn.
    + split; [|split; [intros f0 c Hne; now apply write_file_others|]].
      * intros f0 data. unfold write_file. rewrite in_app_iff, filter_In.
        intros [[H _]|[H|[]]]; [exact H | discriminate H].
      * repeat split.
    + split; [tauto|]. split; [tauto|]. repeat split.
  - destruct (json_dump env) as [f|]; cbn [fst snd].
    { destruct (wf_after_open f); cbn; intros [H|H]; now destruct H. }
    intros _. split; [reflexivity|]. split; [reflexivity|]. eexists.
    destruct profile as [p|]; cbn [snd]; [|apply json_written].
    match goal with
    | |- context [match ?x with Returned _ => _ | Raised _ => _ end] =>
        destruct x as [df|e] end; [|apply json_written].
    destruct (csv_write env) as [f|].
    { destruct (wf_after_open f); apply json_written. }
    destruct send_email_report; [|apply json_written].
    destruct (ADMIN_EMAIL env) as [admin|]; [|apply json_written].
    destruct (PyStr.truthy admin); [|apply json_written].
    match goal with |- context [send_email env ?a ?b ?c ?d ?e] =>
      pose proof (send_email_files env a b c d e) as Hf;
      destruct (send_email env a b c d e) as [[sent|err] w3]
    end; simpl in *; rewrite Hf; apply json_written.
Qed.

Lemma json_failure_stops_save_witness :
  fst (save_conversation Sample.env_disk_full [] (Some Sample.profile)
         "conv-1" "user-1" [] None "" true Sample.world)
  = Returned SaveNone.
Proof.
  refine (proj1 (proj1
    (json_failure_stops_save Sample.env_disk_full [] (Some Sample.profile)
       "conv-1" "user-1" [] None "" true Sample.world) _ eq_refl)).
  discriminate.
Defined.

(** * Further properties *)

(** ** Statistics of the session *)

(** X1: the strategy named when the session ends has at least as many
    votes as the other one; it is [dynamic_context] only with strictly more
    votes, so a tie, also the tie of no votes, names [conditional]. *)
Theorem dominant_has_most_votes (log : PreferenceLog) :
  exists d,
    dominant log = Some d /\
    (forall t, votes_for t log <= votes_for d log) /\
    (d = dynamic_context <->
     votes_for conditional log < votes_for dynamic_context log).
Proof.
  rewrite dominant_argmax.
  destruct (Nat.ltb_spec (votes_for conditional log)
                         (votes_for dynamic_context log)) as [Hlt|Hge];
    eexists; (split; [reflexivity|]); split.
  - intros []; lia.
  - tauto.
  - intros []; lia.
  - split; [discriminate | lia].
Qed.

Lemma total_votes_count_votes (log : PreferenceLog) :
  total_votes (count_votes log) = List.length log.
Proof.
  rewrite count_votes_spec. unfold total_votes. simpl.
  rewrite <- votes_total. lia.
Qed.

Lemma tc_get_count_votes (t : technique) (log : PreferenceLog) :
  tc_get t (count_votes log) = votes_for t log.
Proof. rewrite count_votes_spec. now destruct t. Qed.

(** X2: for every preference log, the tally of the side bar and of the
    summary adds up to the number of entries N of the log; the summary
    percentage of a strategy is 100 times its votes over N, the two add up
    to 100 when N > 0, and both are 0 when the log is empty. *)
Theorem summary_percentages (log : PreferenceLog) :
  let N := List.length log in
  total_votes (count_votes log) = N /\
  (forall t, 0 < N ->
     (summary_percent log t
      == 100 * inject_Z (Z.of_nat (votes_for t log)) / inject_Z (Z.of_nat N))%Q) /\
  (0 < N ->
   (summary_percent log conditional + summary_percent log dynamic_context
    == 100)%Q) /\
  (N = 0 -> summary_percent log conditional = 0%Q /\
            summary_percent log dynamic_context = 0%Q).
Proof.
  cbv zeta. unfold summary_percent.
  rewrite total_votes_count_votes.
  split; [reflexivity|]. split; [|split].
  - intros t Hpos. rewrite tc_get_count_votes. now apply percentage_value.
  - intro Hpos. rewrite !tc_get_count_votes.
    apply percentage_sum; [exact Hpos | apply votes_total].
  - intros ->. split; reflexivity.
Qed.

Lemma summary_percentages_witness :
  (summary_percent [("r1", conditional); ("r2", dynamic_context);
                    ("r3", conditional)] conditional
   == 100 * inject_Z 2 / inject_Z 3)%Q.
Proof.
  refine (proj1 (proj2 (summary_percentages _)) conditional _).
  simpl. lia.
Defined.



(** ** The shape of one pass *)

(** A vote button that fires changes the content of one turn that waited
    for its vote to the text of one of its two labels, and records that
    strategy under the identifier of the turn. *)
Lemma chat_vote_shape (click : option Click) (log : PreferenceLog)
    (h h' : list message) (log' : PreferenceLog) :
  chat_vote click log h = Some (h', log') ->
  exists pre post c rid r a b t,
    h = (pre ++ ExperimentMsg c rid r a b :: post)%list /\
    h' = (pre ++ ExperimentMsg (responses_get r t) rid r a b :: post)%list /\
    log' = Dict.set rid t log /\
    Dict.mem rid log = false /\
    (click = Some (PreferA rid) /\ t = a \/ click = Some (PreferB rid) /\ t = b).
Proof.
  revert h' log'. induction h as [|m h IH]; intros h' log' H; simpl in H.
  - discriminate.
  - assert (Hcont : forall h1 l1,
      chat_vote click log h = Some (h1, l1) -> h' = m :: h1 -> log' = l1 ->
      exists pre post c rid r a b t,
        (m :: h = pre ++ ExperimentMsg c rid r a b :: post)%list /\
        h' = (pre ++ ExperimentMsg (responses_get r t) rid r a b :: post)%list /\
        log' = Dict.set rid t log /\ Dict.mem rid log = false /\
        (click = Some (PreferA rid) /\ t = a \/
         click = Some (PreferB rid) /\ t = b)).
    { intros h1 l1 E -> ->.
      destruct (IH _ _ E) as (pre & post & c & rid & r & a & b & t
                              & -> & -> & -> & Hm & Hc).
      exists (m :: pre), post, c, rid, r, a, b, t. simpl. auto. }
    destruct (chat_vote click log h) as [[h1 l1]|] eqn:E.
    + destruct m as [c|c|c rid r a b];
        try (injection H as <- <-; eapply Hcont; eauto; fail).
      destruct (Dict.mem rid log) eqn:Hmem;
        [injection H as <- <-; eapply Hcont; eauto|].
      destruct click as [[| | |r0|r0]|];
        try (injection H as <- <-; eapply Hcont; eauto; fail);
        (destruct (String.eqb_spec r0 rid) as [->|Hne];
          [|injection H as <- <-; eapply Hcont; eauto]);
        injection H as <- <-;
        [exists [], h, c, rid, r, a, b, a | exists [], h, c, rid, r, a, b, b];
        simpl; auto 10.
    + destruct m as [c|c|c rid r a b]; try discriminate.
      destruct (Dict.mem rid log) eqn:Hmem; [discriminate|].
      destruct click as [[| | |r0|r0]|]; try discriminate;
        (destruct (String.eqb_spec r0 rid) as [->|Hne]; [|discriminate]);
        injection H as <- <-;
        [exists [], h, c, rid, r, a, b, a | exists [], h, c, rid, r, a, b, b];
        simpl; auto 10.
Qed.

(** What one pass of [main] does to the history and the log: nothing; the
    welcome turn of an empty history, maybe followed by a nudge; the reset
    of the button that saves and ends; one vote; or one user turn followed
    by one turn with two candidates under different labels. *)
Lemma main_shape (env : Env) (inp : Inputs) (s : Session) (w : World) :
  let s' := fst (main env inp s w) in
  let h := ss_conversation_history s in
  let log := ss_preferred_technique s in
  let h' := ss_conversation_history s' in
  let log' := ss_preferred_technique s' in
  exists hw,
    (hw = h \/ (h = [] /\ exists text, hw = [AssistantMsg text])) /\
    ((h' = hw /\ log' = log) \/
     (exists text, h' = (hw ++ [AssistantMsg text])%list /\ log' = log) \/
     (click inp = Some SaveAndEnd /\ h' = [] /\ log' = []) \/
     (click inp <> Some SaveAndEnd /\
      chat_vote (click inp) log hw = Some (h', log')) \/
     (exists r a b,
        a <> b /\ log' = log /\ click inp <> Some SaveAndEnd /\
        ss_current_message_processed s = false /\
        h' = (hw ++ [UserMsg (user_input inp);
                     ExperimentMsg "" (uuid_response inp) r a b])%list)).
Proof.
  cbv zeta. unfold main.
  destruct (negb (env_truthy (OPENAI_API_KEY env)));
    [exists (ss_conversation_history s); auto|].
  destruct (negb (ss_onboarding_complete s)).
  { exists (ss_conversation_history s). split; [auto|]. left.
    destruct (click inp) as [[| | | |]|]; auto.
    destruct (negb (PyStr.truthy _)); auto. }
  destruct (ss_user_profile s) as [profile|];
    [|exists (ss_conversation_history s); auto].
  exists (welcome_if_empty profile (ss_conversation_history s)). split.
  { destruct (ss_conversation_history s); simpl; eauto. }
  set (hw := welcome_if_empty profile (ss_conversation_history s)).
  set (s1 := mkSession _ hw _ _ _ _ _ _ _ _).
  assert (Hchat :
    click inp <> Some SaveAndEnd ->
    let s' := fst (chat_and_input env inp profile s1 w) in
    (ss_conversation_history s' = hw /\
     ss_preferred_technique s' = ss_preferred_technique s) \/
    (exists text, ss_conversation_history s' = (hw ++ [AssistantMsg text])%list
                  /\ ss_preferred_technique s' = ss_preferred_technique s) \/
    (click inp = Some SaveAndEnd /\ ss_conversation_history s' = [] /\
     ss_preferred_technique s' = []) \/
    (click inp <> Some SaveAndEnd /\
     chat_vote (click inp) (ss_preferred_technique s) hw
     = Some (ss_conversation_history s', ss_preferred_technique s')) \/
    (exists r a b,
       a <> b /\ ss_preferred_technique s' = ss_preferred_technique s /\
       click inp <> Some SaveAndEnd /\
       ss_current_message_processed s = false /\
       ss_conversation_history s'
       = (hw ++ [UserMsg (user_input inp);
                 ExperimentMsg "" (uuid_response inp) r a b])%list)).
  { intro Hclick. cbv zeta. unfold chat_and_input.
    change (ss_preferred_technique s1) with (ss_preferred_technique s).
    change (ss_conversation_history s1) with hw.
    destruct (chat_vote _ _ hw) as [[h' l']|] eqn:Hvote; [simpl; auto 6|].
    destruct (submit_message env inp profile s1 w) as [[s' w']|] eqn:Hsub.
    - unfold submit_message in Hsub.
      destruct (PyStr.truthy (user_input inp)); simpl in Hsub; [|discriminate].
      destruct (ss_current_message_processed s) eqn:Hflag; simpl in Hsub;
        [discriminate|].
      destruct (get_completion env _ (user_input inp) w) as [r1 w1].
      destruct (get_completion env _ (user_input inp) w1) as [r2 w2].
      right; right; right; right.
      destruct (shuffle_swaps inp); injection Hsub as <- <-; simpl;
        do 3 eexists; rewrite <- app_assoc; simpl;
        (split; [|split; [reflexivity|split; [exact Hclick|split; reflexivity]]]);
        discriminate.
    - simpl. destruct (idle_nudge_spec inp profile s1) as ([E|[text E]] & Hl & _);
        simpl in *; rewrite E, Hl; eauto. }
  destruct (click inp) as [[| | | |]|] eqn:Hclick;
    try (apply Hchat; discriminate).
  - simpl. auto.
  - unfold save_and_end.
    destruct (save_conversation _ _ _ _ _ _ _ _ _ _) as [[r|e] w']; simpl; auto 6.
Qed.

(** ** What a pass and a run keep *)

Lemma dict_get_Some_mem {V} (k : string) (v : V) (d : Dict.t V) :
  Dict.get k d = Some v -> Dict.mem k d = true.
Proof. intro H. now rewrite dict_get_mem, H. Qed.

Lemma dict_mem_false_get {V} (k : string) (d : Dict.t V) :
  Dict.mem k d = false -> Dict.get k d = None.
Proof. rewrite dict_get_mem. now destruct (Dict.get k d). Qed.

(** X4: a pass that is not started by the button that saves and ends never
    removes or changes an entry of the preference log, and adds at most one
    entry: a recorded vote is final. *)
Theorem log_only_grows (env : Env) (inp : Inputs) (s : Session) (w : World) :
  click inp <> Some SaveAndEnd ->
  let log := ss_preferred_technique s in
  let log' := ss_preferred_technique (fst (main env inp s w)) in
  (forall k v, Dict.get k log = Some v -> Dict.get k log' = Some v) /\
  List.length log' <= List.length log + 1.
Proof.
  intro Hclick. cbv zeta.
  destruct (main_shape env inp s w) as (hw & _ & Hs). cbv zeta in Hs.
  destruct Hs as [[_ ->]|[(text & _ & ->)|[(Hc & _)|[(_ & Hv)|(r & a & b & _ & -> & _)]]]];
    try (split; [auto | lia]); try contradiction.
  apply chat_vote_shape in Hv.
  destruct Hv as (pre & post & c & rid & r & a & b & t & _ & _ & -> & Hm & _).
  split.
  - intros k v Hk. rewrite dict_get_set_other; [exact Hk|].
    intros ->. apply dict_get_Some_mem in Hk. congruence.
  - rewrite (dict_set_new _ _ _ Hm), length_app. simpl. lia.
Qed.

Lemma log_only_grows_witness :
  Dict.get "r1" (ss_preferred_technique
                   (fst (main Sample.env (Sample.inputs None "more" "r2")
                           (fst Sample.p3) (snd Sample.p3))))
  = Some conditional.
Proof.
  refine (proj1 (log_only_grows Sample.env (Sample.inputs None "more" "r2")
                   (fst Sample.p3) (snd Sample.p3) _) "r1" conditional _).
  - discriminate.
  - vm_compute. reflexivity.
Defined.

Lemma rated_of_length (log : PreferenceLog) (ids : list string) :
  List.length (rated_of log ids)
  = List.length (filter (fun r => Dict.mem r log) ids).
Proof.
  induction ids as [|i ids IH]; simpl; [reflexivity|].
  rewrite dict_get_mem. destruct (Dict.get i log); simpl; now rewrite IH.
Qed.

(** X5: in a run of the program the keys of the preference log are
    pairwise different response identifiers of turns of the history, the
    identifiers of the turns are pairwise different, and every turn with
    candidates is either voted on or waiting: the entries of the log and
    the waiting turns add up to the turns with candidates. *)
Theorem log_entries_are_turns (env : Env) (s : Session) (w : World) :
  run env s w ->
  let log := ss_preferred_technique s in
  let ids := experiment_ids (ss_conversation_history s) in
  NoDup ids /\ NoDup (Dict.keys log) /\
  (forall k, Dict.mem k log = true -> In k ids) /\
  List.length log
    + List.length (pending_ids log (ss_conversation_history s))
  = List.length ids.
Proof.
  intro Hrun. destruct (run_inv _ _ _ Hrun) as [Hcore _]. cbv zeta.
  pose proof (tally_history_log _ _ _ Hcore) as [Hn _].
  destruct (tally_history_spec (ss_preferred_technique s)
              (ss_conversation_history s)) as [Hn' _].
  destruct Hcore as (Hids & Hkeys & Hincl & _).
  repeat split; auto.
  - intros k Hk. apply Hincl. now apply dict_mem_In.
  - rewrite <- Hn, Hn', rated_of_length. unfold pending_ids.
    apply filter_length.
Qed.

Lemma log_entries_are_turns_witness :
  NoDup (experiment_ids (ss_conversation_history (fst Sample.p3))).
Proof.
  exact (proj1 (log_entries_are_turns Sample.env (fst Sample.p3)
                  (snd Sample.p3) run_sample_p3)).
Defined.

Lemma Forall_welcome (P : message -> Prop) (h hw : list message) :
  (forall text, P (AssistantMsg text)) ->
  hw = h \/ (h = [] /\ exists text, hw = [AssistantMsg text]) ->
  Forall P h -> Forall P hw.
Proof.
  intros HP [->|[_ [text ->]]] H; [exact H|]. constructor; auto.
Qed.

(** X6: in a run of the program the two labels of every turn with
    candidates stand for the two different strategies. *)
Theorem labels_are_a_bijection (env : Env) (s : Session) (w : World) :
  run env s w -> Forall labels_differ (ss_conversation_history s).
Proof.
  induction 1 as [cid uid t w|inp s w _ IH _]; [constructor|].
  destruct (main_shape env inp s w) as (hw & Hw & Hs). cbv zeta in Hs.
  apply (Forall_welcome labels_differ _ _ (fun _ => I) Hw) in IH.
  destruct Hs as [[-> _]|[(text & -> & _)|[(_ & -> & _)|[(_ & Hv)|(r & a & b & Hab & _ & _ & _ & ->)]]]].
  - exact IH.
  - apply Forall_app. split; [exact IH | repeat constructor].
  - constructor.
  - apply chat_vote_shape in Hv.
    destruct Hv as (pre & post & c & rid & r & a & b & t & -> & -> & _).
    apply Forall_app in IH. destruct IH as [Hpre Hpost].
    inversion Hpost; subst. apply Forall_app. split; [exact Hpre|].
    constructor; assumption.
  - apply Forall_app. split; [exact IH|]. repeat constructor. exact Hab.
Qed.

Lemma labels_are_a_bijection_witness :
  Forall labels_differ (ss_conversation_history (fst Sample.p3)).
Proof.
  exact (labels_are_a_bijection Sample.env (fst Sample.p3) (snd Sample.p3)
           run_sample_p3).
Defined.

Lemma experiment_ids_In (c rid : string) (r : Responses) (a b : technique)
    (l : list message) :
  In (ExperimentMsg c rid r a b) l -> In rid (experiment_ids l).
Proof.
  induction l as [|m l IH]; simpl; [tauto|].
  intros [->|H]; [now left|].
  destruct m; simpl; auto.
Qed.

Lemma content_matches_set (log : PreferenceLog) (rid : string) (t : technique)
    (l : list message) :
  ~ In rid (experiment_ids l) ->
  Forall (content_matches log) l ->
  Forall (content_matches (Dict.set rid t log)) l.
Proof.
  intros Hnotin H. rewrite Forall_forall in *. intros m Hm.
  specialize (H m Hm). destruct m as [c|c|c rid' r a b]; simpl in *; auto.
  rewrite dict_get_set_other; [exact H|].
  intros ->. apply Hnotin. eapply experiment_ids_In; eauto.
Qed.

(** X7: in a run of the program the content of every turn with candidates
    is empty while the turn waits for its vote, and is the candidate text
    of the voted strategy once the log holds its identifier: the stored
    content is the text the chat shows for the turn. *)
Theorem content_follows_vote (env : Env) (s : Session) (w : World) :
  run env s w ->
  Forall (content_matches (ss_preferred_technique s))
         (ss_conversation_history s).
Proof.
  induction 1 as [cid uid t w|inp s w Hrun IH Hfresh]; [constructor|].
  destruct (run_inv _ _ _ Hrun) as [(Hids & Hkeys & Hincl & _) _].
  destruct (main_shape env inp s w) as (hw & Hw & Hs). cbv zeta in Hs.
  assert (Hidw : experiment_ids hw
                 = experiment_ids (ss_conversation_history s)).
  { destruct Hw as [->|[-> [text ->]]]; reflexivity. }
  apply (Forall_welcome _ _ _ (fun _ => I) Hw) in IH.
  destruct Hs as [[-> ->]|[(text & -> & ->)|[(_ & -> & _)|[(_ & Hv)|(r & a & b & _ & -> & _ & _ & ->)]]]].
  - exact IH.
  - apply Forall_app. split; [exact IH | repeat constructor].
  - constructor.
  - apply chat_vote_shape in Hv.
    destruct Hv as (pre & post & c & rid & r & a & b & t & -> & -> & -> & Hm & _).
    rewrite <- Hidw, experiment_ids_app in Hids. simpl in Hids.
    apply NoDup_remove in Hids. destruct Hids as [_ Hnotin].
    apply Forall_app in IH. destruct IH as [Hpre Hpost].
    inversion Hpost as [|? ? _ Hpost']; subst.
    apply Forall_app. split; [|constructor].
    + apply content_matches_set; [|exact Hpre].
      intro H. apply Hnotin, in_or_app. now left.
    + simpl. now rewrite dict_get_set_same.
    + apply content_matches_set; [|exact Hpost'].
      intro H. apply Hnotin, in_or_app. now right.
  - apply Forall_app. split; [exact IH|]. repeat constructor. simpl.
    rewrite dict_mem_false_get; [reflexivity|].
    apply dict_mem_false. intro Hin. apply Hfresh. now apply Hincl.
Qed.

Lemma content_follows_vote_witness :
  Forall (content_matches (ss_preferred_technique (fst Sample.p3)))
         (ss_conversation_history (fst Sample.p3)).
Proof.
  exact (content_follows_vote Sample.env (fst Sample.p3) (snd Sample.p3)
           run_sample_p3).
Defined.

(** ** Requests, files and onboarding *)

Lemma get_completion_spec (env : Env) (sp um : string) (w : World) :
  client env = true ->
  get_completion env sp um w
  = (reply_text (completion env (List.length (api_calls w))),
     with_api_calls w (api_calls w ++ [mkRequest "gpt-4o-mini" sp um 400])).
Proof.
  intro Hc. unfold get_completion. rewrite Hc. simpl.
  now destruct (completion env _).
Qed.

Lemma get_completion_files (env : Env) (sp um : string) (w : World) :
  let w' := snd (get_completion env sp um w) in
  json_files w' = json_files w /\ csv_file w' = csv_file w /\
  smtp_connections w' = smtp_connections w /\ delivered w' = delivered w /\
  (api_calls w' = api_calls w \/
   api_calls w' = (api_calls w ++ [mkRequest "gpt-4o-mini" sp um 400])%list).
Proof.
  cbv zeta. unfold get_completion. destruct (negb (client env)); simpl; [tauto|].
  destruct (completion env _); simpl; tauto.
Qed.

(** X8: with a credential, a typed message that is taken sends exactly two
    requests, first the conditional and then the dynamic-context prompt,
    both built from the same context, which ends with the message just
    typed, and both carrying that message; the two candidate texts of the
    new turn are the replies to these two requests, an exception of the
    service standing in its own slot as a text that starts with Error
    while the other slot is what the service answered. *)
Theorem taken_message_sends_two_requests (env : Env) (inp : Inputs)
    (p : UserProfile) (s : Session) (w : World) :
  client env = true ->
  PyStr.truthy (user_input inp) = true ->
  ss_current_message_processed s = false ->
  let h1 := (ss_conversation_history s ++ [UserMsg (user_input inp)])%list in
  let context := get_conversation_context h1 in
  let n := List.length (api_calls w) in
  exists s' w' a b,
    submit_message env inp p s w = Some (s', w') /\
    api_calls w'
    = (api_calls w ++
       [mkRequest "gpt-4o-mini"
          (generate_conditional_response_prompt p context) (user_input inp) 400;
        mkRequest "gpt-4o-mini"
          (generate_dynamic_context_prompt p context) (user_input inp) 400])%list /\
    ss_conversation_history s'
    = (h1 ++ [ExperimentMsg "" (uuid_response inp)
                (mkResponses (reply_text (completion env n))
                             (reply_text (completion env (S n)))) a b])%list /\
    ss_preferred_technique s' = ss_preferred_technique s /\
    ss_current_message_processed s' = true /\
    ss_input_key s' = ss_input_key s + 1.
Proof.
  intros Hc Hin Hflag. cbv zeta. unfold submit_message.
  rewrite Hin, Hflag. simpl. rewrite !get_completion_spec by exact Hc.
  simpl. rewrite length_app. simpl. rewrite Nat.add_1_r.
  destruct (shuffle_swaps inp); do 4 eexists;
    (split; [reflexivity|]); simpl; rewrite <- !app_assoc; simpl; auto.
Qed.

Lemma taken_message_sends_two_requests_witness :
  exists s' w' a b,
    submit_message Sample.env (Sample.inputs None "hello" "r5")
      Sample.profile Sample.s0 Sample.world = Some (s', w') /\
    ss_conversation_history s'
    = [UserMsg "hello";
       ExperimentMsg "" "r5" (mkResponses "reply one" "reply two") a b].
Proof.
  destruct (taken_message_sends_two_requests Sample.env
              (Sample.inputs None "hello" "r5") Sample.profile Sample.s0
              Sample.world eq_refl eq_refl eq_refl)
    as (s' & w' & a & b & H1 & _ & H3 & _).
  exists s', w', a, b. split; [exact H1 | exact H3].
Defined.

Lemma submit_message_files (env : Env) (inp : Inputs) (p : UserProfile)
    (s s' : Session) (w w' : World) :
  submit_message env inp p s w = Some (s', w') ->
  json_files w' = json_files w /\ csv_file w' = csv_file w /\
  smtp_connections w' = smtp_connections w /\ delivered w' = delivered w /\
  List.length (api_calls w') <= List.length (api_calls w) + 2.
Proof.
  unfold submit_message.
  destruct (PyStr.truthy (user_input inp) && _)%bool; [|discriminate].
  match goal with |- context [get_completion env ?sp ?um w] =>
    pose proof (get_completion_files env sp um w) as H1;
    destruct (get_completion env sp um w) as [r1 w1]
  end.
  match goal with |- context [get_completion env ?sp ?um w1] =>
    pose proof (get_completion_files env sp um w1) as H2;
    destruct (get_completion env sp um w1) as [r2 w2]
  end.
  cbv zeta in H1, H2. simpl in H1, H2.
  destruct H1 as (J1 & C1 & S1 & D1 & A1), H2 as (J2 & C2 & S2 & D2 & A2).
  destruct (shuffle_swaps inp); intros [= <- <-];
    (repeat split; try congruence);
    destruct A1 as [A1|A1], A2 as [A2|A2]; rewrite A2, ?length_app, A1,
      ?length_app; simpl; lia.
Qed.

(** X9: a pass that is not started by the button that saves and ends
    writes no file and hands nothing to the mail relay, whatever the
    inputs; it sends at most two requests to the completion service. *)
Theorem only_save_touches_files (env : Env) (inp : Inputs) (s : Session)
    (w : World) :
  click inp <> Some SaveAndEnd ->
  let w' := snd (main env inp s w) in
  json_files w' = json_files w /\ csv_file w' = csv_file w /\
  smtp_connections w' = smtp_connections w /\ delivered w' = delivered w /\
  List.length (api_calls w') <= List.length (api_calls w) + 2.
Proof.
  intro Hclick. cbv zeta. unfold main.
  destruct (negb (env_truthy _)); [simpl; repeat split; lia|].
  destruct (negb (ss_onboarding_complete s)).
  { destruct (click inp) as [[| | | |]|]; simpl; try (repeat split; lia).
    destruct (negb (PyStr.truthy _)); simpl; repeat split; lia. }
  destruct (ss_user_profile s) as [profile|]; [|simpl; repeat split; lia].
  cbv zeta.
  destruct (click inp) as [[| | | |]|] eqn:Hc; try contradiction;
    try (simpl; repeat split; lia);
    unfold chat_and_input;
    (destruct (chat_vote _ _ _) as [[h' l']|]; [simpl; repeat split; lia|]);
    (match goal with |- context [submit_message env inp profile ?s1 w] =>
       destruct (submit_message env inp profile s1 w) as [[s' w']|] eqn:Hsub
     end; [apply submit_message_files in Hsub; exact Hsub
          |simpl; repeat split; lia]).
Qed.

Lemma only_save_touches_files_witness :
  json_files (snd Sample.p3) = json_files (snd Sample.p2).
Proof.
  refine (proj1 (only_save_touches_files Sample.env
                   (Sample.inputs (Some (PreferB "r1")) "" "r2")
                   (fst Sample.p2) (snd Sample.p2) _)).
  discriminate.
Defined.

(** ** The mail relay and the files *)

Lemma filename_not_csv (cid : string) :
  String.eqb (conversation_filename cid) CSV_PATH = false.
Proof. reflexivity. Qed.

Lemma existsb_written {A} (files : list (string * A)) (filename : string)
    (content : A) :
  existsb (fun f => String.eqb filename (fst f))
    (write_file filename content files) = true.
Proof.
  unfold write_file. rewrite existsb_app. simpl. rewrite String.eqb_refl.
  now rewrite orb_true_r.
Qed.

Lemma first_error_None (read : string -> option string) (l : list string) :
  first_error read l = None <-> forall path, In path l -> read path = None.
Proof.
  induction l as [|x l IH]; simpl.
  - split; [intros _ path [] | reflexivity].
  - destruct (read x) eqn:E.
    + split; [discriminate|]. intro H. rewrite <- E. apply H. now left.
    + rewrite IH. split.
      * intros H path [<-|Hin]; auto.
      * intros H path Hin. apply H. now right.
Qed.




(** X11: when the document and the row are written, a recipient and the
    sender credentials are set and the relay accepts the message,
    [save_conversation] with the report asked for returns the file name
    with the flag [True], and exactly one message is delivered, to the
    recipient, with the summary table and the document of the conversation
    attached, in this order. *)
Theorem report_delivered (env : Env) (log : PreferenceLog) (p : UserProfile)
    (cid uid : string) (h : list message) (pt : option technique)
    (fb admin : string) (w : World) (n : nat) :
  makedirs env = None -> csv_readable env w -> attachments_readable env ->
  json_dump env = None -> csv_write env = None ->
  ADMIN_EMAIL env = Some admin -> PyStr.truthy admin = true ->
  smtp_port env = Returned n ->
  env_truthy (EMAIL_USERNAME env) = true ->
  env_truthy (EMAIL_PASSWORD env) = true ->
  smtp_send env = None ->
  let r := save_conversation env log (Some p) cid uid h pt fb true w in
  fst r = Returned (SaveFileEmail (conversation_filename cid) true) /\
  persisted cid (snd r) /\
  exists msg,
    delivered (snd r) = (delivered w ++ [msg])%list /\
    smtp_connections (snd r) = (smtp_connections w ++ [msg])%list /\
    e_to msg = admin /\
    e_attachments msg = [CSV_PATH; conversation_filename cid].
Proof.
  intros Hmk Hread Hatt Hjson Hcsv Hadmin Htruthy Hport Huser Hpass Hsend.
  cbv zeta. unfold save_conversation.
  destruct (tally_history h log) as [counts total].
  rewrite Hmk, Hjson, Hcsv, Hadmin, Htruthy.
  fold (conversation_filename cid).
  set (data := mkJson cid uid h pt _ _ _ _ _).
  set (row := mkRow cid uid pt _ _ _ _ _ _ _).
  set (w1 := with_json_files w _).
  assert (Hdf : exists df,
    match csv_file w1 with
    | Some content =>
        match read_csv env content with
        | Returned df => Returned (df ++ [row])%list
        | Raised e => Raised e
        end
    | None => Returned [row]
    end = Returned (df ++ [row])%list).
  { unfold csv_readable in Hread. subst w1. cbn [csv_file with_json_files].
    destruct (csv_file w) as [content|]; [|exists []; reflexivity].
    destruct Hread as [rows ->]. now exists rows. }
  destruct Hdf as [df ->].
  set (w2 := with_csv_file w1 _).
  assert (Hx1 : path_exists w2 CSV_PATH = true) by reflexivity.
  assert (Hx2 : path_exists w2 (conversation_filename cid) = true).
  { unfold path_exists. rewrite filename_not_csv. apply existsb_written. }
  rewrite Hx1, Hx2. unfold send_email.
  rewrite Hport, Huser, Hpass, Hsend.
  cbn [negb orb app filter fst snd]. rewrite Hx1, Hx2.
  cbn [first_error]. rewrite !Hatt.
  split; [reflexivity|]. split.
  - apply (persisted_after_writes env w _ cid data df row); reflexivity.
  - eexists. repeat split.
Qed.

Lemma report_delivered_witness :
  fst (save_conversation Sample.env [("r1", conditional)]
         (Some Sample.profile) "conv-1" "user-1"
         (ss_conversation_history (fst Sample.p3)) (Some conditional) "fine"
         true Sample.world)
  = Returned (SaveFileEmail (conversation_filename "conv-1") true).
Proof.
  exact (proj1 (report_delivered Sample.env [("r1", conditional)]
                  Sample.profile "conv-1" "user-1"
                  (ss_conversation_history (fst Sample.p3))
                  (Some conditional) "fine" "admin@example.com" Sample.world
                  587 eq_refl I (fun _ => eq_refl) eq_refl eq_refl eq_refl
                  eq_refl eq_refl eq_refl eq_refl eq_refl)).
Defined.

(** X12: when the document is written and the step of the summary table
    raises, [save_conversation] returns [None]: the document stays on disk,
    nothing is handed to the mail relay, and the failure is shown as an
    error box. The table is as it was when pandas cannot read it or when
    the write raises before the file is opened; it is left damaged when the
    write raises after the file was opened. *)
Theorem csv_failure_keeps_document (env : Env) (log : PreferenceLog)
    (p : UserProfile) (cid uid : string) (h : list message)
    (pt : option technique) (fb : string) (report : bool) (w : World) :
  makedirs env = None -> json_dump env = None ->
  let r := save_conversation env log (Some p) cid uid h pt fb report w in
  let failed (e : string) (table : option (file_content (list CsvRow))) :=
    fst r = Returned SaveNone /\
    (exists data,
       In (conversation_filename cid, Complete data) (json_files (snd r)) /\
       j_conversation_history data = h /\ j_detailed_preferences data = log) /\
    csv_file (snd r) = table /\
    smtp_connections (snd r) = smtp_connections w /\
    delivered (snd r) = delivered w /\
    errors_shown (snd r)
    = (errors_shown w ++ [("Failed to save CSV file: " ++ e)%string])%list in
  (forall content e,
     csv_file w = Some content -> read_csv env content = Raised e ->
     failed e (csv_file w)) /\
  (forall f,
     csv_readable env w -> csv_write env = Some f ->
     failed (wf_text f)
            (if wf_after_open f then Some Damaged else csv_file w)).
Proof.
  intros Hmk Hjson. cbv zeta. unfold save_conversation.
  destruct (tally_history h log) as [counts total].
  rewrite Hmk, Hjson. fold (conversation_filename cid).
  cbn [csv_file with_json_files]. split.
  - intros content e Hc Hr. rewrite Hc, Hr. cbn [fst snd].
    split; [reflexivity|]. split.
    + eexists. split; [apply json_written|]. split; reflexivity.
    + unfold st_error, with_csv_file, with_json_files.
      cbn [csv_file smtp_connections delivered errors_shown].
      rewrite ?Hc. repeat split.
  - intros f Hread Hw. unfold csv_readable in Hread.
    assert (Hdoc : forall w',
      json_files w'
      = write_file (conversation_filename cid)
          (Complete (mkJson cid uid h pt (technique_percentages counts total)
                       (Some p) total log fb)) (json_files w) ->
      exists data,
        In (conversation_filename cid, Complete data) (json_files w') /\
        j_conversation_history data = h /\ j_detailed_preferences data = log).
    { intros w' ->. eexists. split; [apply json_written|].
      split; reflexivity. }
    destruct (csv_file w) as [content|] eqn:Hc.
    + destruct Hread as [rows ->]. rewrite Hw.
      destruct (wf_after_open f); cbn [fst snd];
        (split; [reflexivity|]); (split; [apply Hdoc; reflexivity|]);
        unfold st_error, with_csv_file, with_json_files;
        cbn [csv_file smtp_connections delivered errors_shown];
        rewrite ?Hc; repeat split.
    + rewrite Hw.
      destruct (wf_after_open f); cbn [fst snd];
        (split; [reflexivity|]); (split; [apply Hdoc; reflexivity|]);
        unfold st_error, with_csv_file, with_json_files;
        cbn [csv_file smtp_connections delivered errors_shown];
        rewrite ?Hc; repeat split.
Qed.

Lemma csv_failure_keeps_document_witness :
  fst (save_conversation Sample.env_csv_locked [] (Some Sample.profile)
         "conv-1" "user-1" [] None "" true Sample.world)
  = Returned SaveNone.
Proof.
  exact (proj1 (proj2 (csv_failure_keeps_document Sample.env_csv_locked []
                  Sample.profile "conv-1" "user-1" [] None "" true
                  Sample.world eq_refl eq_refl)
                 (mkWriteFailure "Permission denied" false) I eq_refl)).
Defined.

Lemma save_conversation_port_raises (env : Env) (log : PreferenceLog)
    (p : UserProfile) (cid uid : string) (h : list message)
    (pt : option technique) (fb : string) (w : World) (e : string) :
  makedirs env = None -> csv_readable env w ->
  json_dump env = None -> csv_write env = None ->
  env_truthy (ADMIN_EMAIL env) = true ->
  smtp_port env = Raised e ->
  let r := save_conversation env log (Some p) cid uid h pt fb true w in
  fst r = Raised e /\ persisted cid (snd r) /\
  smtp_connections (snd r) = smtp_connections w /\
  delivered (snd r) = delivered w.
Proof.
  intros Hmk Hread Hjson Hcsv Hadmin Hport. cbv zeta.
  unfold save_conversation.
  destruct (tally_history h log) as [counts total].
  rewrite Hmk, Hjson, Hcsv. fold (conversation_filename cid).
  set (data := mkJson cid uid h pt _ _ _ _ _).
  set (row := mkRow cid uid pt _ _ _ _ _ _ _).
  set (w1 := with_json_files w _).
  assert (Hdf : exists df,
    match csv_file w1 with
    | Some content =>
        match read_csv env content with
        | Returned df => Returned (df ++ [row])%list
        | Raised e => Raised e
        end
    | None => Returned [row]
    end = Returned (df ++ [row])%list).
  { unfold csv_readable in Hread. subst w1. cbn [csv_file with_json_files].
    destruct (csv_file w) as [content|]; [|exists []; reflexivity].
    destruct Hread as [rows ->]. now exists rows. }
  destruct Hdf as [df ->].
  destruct (ADMIN_EMAIL env) as [admin|]; [|discriminate].
  simpl in Hadmin. rewrite Hadmin. unfold send_email. rewrite Hport.
  cbn [fst snd].
  split; [reflexivity|]. split; [|split; reflexivity].
  apply (persisted_after_writes env w _ cid data df row); reflexivity.
Qed.

Lemma send_email_returns (env : Env) (to subject body : string)
    (att : list string) (w : World) (n : nat) :
  smtp_port env = Returned n -> attachments_readable env ->
  exists sent, fst (send_email env to subject body att w) = Returned sent.
Proof.
  intros Hport Hatt. unfold send_email. rewrite Hport.
  destruct (negb _ || negb _)%bool; [eexists; reflexivity|].
  assert (Hfe : first_error (attachment_read env)
                  (filter (path_exists w) att) = None)
    by (apply first_error_None; intros; apply Hatt).
  rewrite Hfe. destruct (smtp_send env); eexists; reflexivity.
Qed.

Lemma save_conversation_returns (env : Env) (log : PreferenceLog)
    (p : UserProfile) (cid uid : string) (h : list message)
    (pt : option technique) (fb : string) (report : bool) (w : World)
    (n : nat) :
  makedirs env = None ->
  smtp_port env = Returned n -> attachments_readable env ->
  exists r,
    fst (save_conversation env log (Some p) cid uid h pt fb report w)
    = Returned r.
Proof.
  intros Hmk Hport Hatt. unfold save_conversation.
  destruct (tally_history h log) as [counts total]. rewrite Hmk.
  destruct (json_dump env); [eexists; reflexivity|].
  match goal with
  | |- context [match ?x with Returned _ => _ | Raised _ => _ end] =>
      destruct x as [df|e] end; [|eexists; reflexivity].
  destruct (csv_write env); [eexists; reflexivity|].
  destruct report; [|eexists; reflexivity].
  destruct (ADMIN_EMAIL env) as [admin|]; [|eexists; reflexivity].
  destruct (PyStr.truthy admin); [|eexists; reflexivity].
  match goal with |- context [send_email env ?a ?b ?c ?d ?e] =>
    destruct (send_email_returns env a b c d e n Hport Hatt) as (sent & Hs);
    destruct (send_email env a b c d e) as [[x|x] w3]
  end; simpl in *; [eexists; reflexivity | discriminate].
Qed.

(** X13: a port of the relay that is no number makes the button that saves
    and ends raise after the document and the row are written: nothing is
    handed to the relay, and the session is not reset, so history and log
    are still those of the conversation. *)
Theorem bad_port_aborts_after_writing (env : Env) (inp : Inputs)
    (s : Session) (w : World) (p : UserProfile) (e : string) :
  env_truthy (OPENAI_API_KEY env) = true ->
  ss_onboarding_complete s = true ->
  ss_user_profile s = Some p ->
  click inp = Some SaveAndEnd ->
  makedirs env = None -> csv_readable env w ->
  json_dump env = None -> csv_write env = None ->
  env_truthy (ADMIN_EMAIL env) = true ->
  smtp_port env = Raised e ->
  let r := main env inp s w in
  ss_conversation_history (fst r)
    = welcome_if_empty p (ss_conversation_history s) /\
  ss_preferred_technique (fst r) = ss_preferred_technique s /\
  ss_conversation_id (fst r) = ss_conversation_id s /\
  ss_onboarding_complete (fst r) = true /\
  persisted (ss_conversation_id s) (snd r) /\
  delivered (snd r) = delivered w.
Proof.
  intros Hkey Honb Hp Hclick Hmk Hread Hjson Hcsv Hadmin Hport. cbv zeta.
  unfold main. rewrite Hkey, Honb, Hp, Hclick. cbn [negb]. cbv zeta.
  unfold save_and_end. cbn [ss_preferred_technique ss_user_profile
    ss_conversation_id ss_user_id ss_conversation_history].
  rewrite ?Hp.
  match goal with |- context [save_conversation env ?a (Some p) ?c ?d ?h ?f ?g true w] =>
    destruct (save_conversation_port_raises env a p c d h f g w e
                Hmk Hread Hjson Hcsv Hadmin Hport) as (Hr & Hpers & _ & Hd);
    destruct (save_conversation env a (Some p) c d h f g true w) as [[x|x] w']
  end; simpl in *; [discriminate|].
  rewrite ?Honb. auto 10.
Qed.

Lemma bad_port_aborts_after_writing_witness :
  ss_preferred_technique
    (fst (main Sample.env_bad_port (Sample.inputs (Some SaveAndEnd) "" "r2")
            (fst Sample.p3) (snd Sample.p3)))
  = ss_preferred_technique (fst Sample.p3).
Proof.
  refine (proj1 (proj2
    (bad_port_aborts_after_writing Sample.env_bad_port
       (Sample.inputs (Some SaveAndEnd) "" "r2") (fst Sample.p3)
       (snd Sample.p3) Sample.profile "invalid literal for int()"
       eq_refl _ _ eq_refl eq_refl _ eq_refl eq_refl eq_refl eq_refl)));
    vm_compute; auto.
Defined.

(** X14: the button that saves and ends on an onboarded session. When the
    directory can be made, the port of the relay is a number and the
    attachments can be read, it always leaves a fresh session: no profile,
    an empty history, an empty log, new identifiers and onboarding to be
    done again, whether or not the writes of the document and of the row
    go through. When the directory cannot be made the call raises: the
    session is not reset and nothing outside it is touched. *)
Theorem save_and_end_resets (env : Env) (inp : Inputs) (s : Session)
    (w : World) (p : UserProfile) :
  env_truthy (OPENAI_API_KEY env) = true ->
  ss_onboarding_complete s = true ->
  ss_user_profile s = Some p ->
  click inp = Some SaveAndEnd ->
  let r := main env inp s w in
  (makedirs env = None ->
   (exists n, smtp_port env = Returned n) ->
   attachments_readable env ->
   fst r
   = mkSession None [] (uuid_conversation inp) (uuid_user inp) [] false false
       (now inp) (ss_last_engagement_time s) 0) /\
  (makedirs env <> None ->
   ss_conversation_history (fst r)
     = welcome_if_empty p (ss_conversation_history s) /\
   ss_preferred_technique (fst r) = ss_preferred_technique s /\
   ss_user_profile (fst r) = Some p /\
   ss_onboarding_complete (fst r) = true /\
   snd r = w).
Proof.
  intros Hkey Honb Hp Hclick. cbv zeta.
  unfold main. rewrite Hkey, Honb, Hp, Hclick. cbn [negb]. cbv zeta.
  unfold save_and_end. cbn [ss_preferred_technique ss_user_profile
    ss_conversation_id ss_user_id ss_conversation_history
    ss_last_engagement_time].
  rewrite ?Hp. split.
  - intros Hmk [n Hport] Hatt.
    match goal with |- context [save_conversation env ?a (Some p) ?c ?d ?h ?f ?g true w] =>
      destruct (save_conversation_returns env a p c d h f g true w n
                  Hmk Hport Hatt) as (r & Hr);
      destruct (save_conversation env a (Some p) c d h f g true w)
        as [[x|x] w']
    end; simpl in *; [reflexivity | discriminate].
  - intro Hmk. unfold save_conversation.
    destruct (tally_history _ _) as [counts total].
    destruct (makedirs env) as [e|]; [|now destruct Hmk].
    cbn. rewrite ?Hp, ?Honb. repeat split.
Qed.

Lemma save_and_end_resets_witness :
  ss_conversation_history
    (fst (main Sample.env_disk_full (Sample.inputs (Some SaveAndEnd) "" "r2")
            (fst Sample.p3) (snd Sample.p3))) = [].
Proof.
  rewrite (proj1 (save_and_end_resets Sample.env_disk_full
             (Sample.inputs (Some SaveAndEnd) "" "r2") (fst Sample.p3)
             (snd Sample.p3) Sample.profile eq_refl eq_refl eq_refl eq_refl)
             eq_refl (ex_intro _ 587 eq_refl) (fun _ => eq_refl));
    reflexivity.
Defined.

(** ** Onboarding and the idle nudge *)

(** X15: while onboarding is not complete a pass changes neither the
    history nor the log and sends no request, whatever is typed or
    pressed; onboarding completes only by the start button with a name that
    is not empty, and then the profile is the one built from the form. *)
Theorem no_chat_before_onboarding (env : Env) (inp : Inputs) (s : Session)
    (w : World) :
  ss_onboarding_complete s = false ->
  let r := main env inp s w in
  ss_conversation_history (fst r) = ss_conversation_history s /\
  ss_preferred_technique (fst r) = ss_preferred_technique s /\
  api_calls (snd r) = api_calls w /\
  (ss_onboarding_complete (fst r) = true ->
   click inp = Some StartChatting /\
   PyStr.truthy (f_name (form inp)) = true /\
   ss_user_profile (fst r) = Some (collect_user_profile (form inp))).
Proof.
  intro Honb. cbv zeta. unfold main. rewrite Honb. cbn [negb].
  destruct (negb (env_truthy _)); [simpl; rewrite Honb; repeat split; discriminate|].
  destruct (click inp) as [[| | | |]|];
    try (simpl; rewrite Honb; repeat split; discriminate).
  change (name (collect_user_profile (form inp))) with (f_name (form inp)).
  destruct (PyStr.truthy (f_name (form inp))); simpl.
  - repeat split.
  - rewrite Honb. repeat split; discriminate.
Qed.

Lemma no_chat_before_onboarding_witness :
  ss_conversation_history (fst Sample.p1) = [].
Proof.
  exact (proj1 (no_chat_before_onboarding Sample.env
                  (Sample.inputs (Some StartChatting) "" "r0") Sample.s0
                  Sample.world eq_refl)).
Defined.

(** X16: the button that updates the profile, followed by a new
    onboarding, replaces the profile and keeps the conversation: history
    (with its welcome turn), preference log, identifier of the
    conversation and the flag of the pending message are as before. *)
Theorem profile_update_keeps_conversation (env : Env) (inp1 inp2 : Inputs)
    (s : Session) (w : World) (p : UserProfile) :
  env_truthy (OPENAI_API_KEY env) = true ->
  ss_onboarding_complete s = true ->
  ss_user_profile s = Some p ->
  click inp1 = Some UpdateProfile ->
  click inp2 = Some StartChatting ->
  PyStr.truthy (f_name (form inp2)) = true ->
  let r1 := main env inp1 s w in
  let r2 := main env inp2 (fst r1) (snd r1) in
  ss_onboarding_complete (fst r1) = false /\
  ss_user_profile (fst r2) = Some (collect_user_profile (form inp2)) /\
  ss_onboarding_complete (fst r2) = true /\
  ss_conversation_history (fst r2)
    = welcome_if_empty p (ss_conversation_history s) /\
  ss_preferred_technique (fst r2) = ss_preferred_technique s /\
  ss_conversation_id (fst r2) = ss_conversation_id s /\
  ss_current_message_processed (fst r2) = ss_current_message_processed s /\
  snd r2 = w.
Proof.
  intros Hkey Honb Hp Hc1 Hc2 Hname. cbv zeta.
  assert (H1 : main env inp1 s w
    = (mkSession (Some p) (welcome_if_empty p (ss_conversation_history s))
         (ss_conversation_id s) (ss_user_id s) (ss_preferred_technique s)
         false (ss_current_message_processed s) (ss_last_interaction_time s)
         (ss_last_engagement_time s) (ss_input_key s), w)).
  { unfold main. rewrite Hkey, Honb, Hp, Hc1. cbn. now rewrite ?Hp. }
  rewrite H1. cbn [fst snd]. split; [reflexivity|].
  unfold main. rewrite Hkey, Hc2. cbn [negb ss_onboarding_complete].
  change (name (collect_user_profile (form inp2))) with (f_name (form inp2)).
  rewrite Hname. cbn. repeat split.
Qed.

Lemma profile_update_keeps_conversation_witness :
  let r1 := main Sample.env (Sample.inputs (Some UpdateProfile) "" "r2")
              (fst Sample.p3) (snd Sample.p3) in
  let r2 := main Sample.env (Sample.inputs (Some StartChatting) "" "r3")
              (fst r1) (snd r1) in
  ss_preferred_technique (fst r2) = ss_preferred_technique (fst Sample.p3).
Proof.
  refine (proj1 (proj2 (proj2 (proj2 (proj2
    (profile_update_keeps_conversation Sample.env
       (Sample.inputs (Some UpdateProfile) "" "r2")
       (Sample.inputs (Some StartChatting) "" "r3")
       (fst Sample.p3) (snd Sample.p3) Sample.profile
       eq_refl _ _ eq_refl eq_refl eq_refl))))));
    vm_compute; reflexivity.
Defined.

Lemma idle_nudge_cooldown (inp : Inputs) (p : UserProfile) (s : Session)
    (t : Q) :
  ss_last_engagement_time s = Some t ->
  (now inp - t <= 100)%Q ->
  idle_nudge inp p s = s.
Proof.
  intros Ht Hcool. unfold idle_nudge. rewrite Ht.
  apply Qle_bool_iff in Hcool. rewrite Hcool. cbn [negb].
  now destruct (negb (Qle_bool _ 60)).
Qed.

Lemma idle_nudge_cases (inp : Inputs) (p : UserProfile) (s : Session) :
  idle_nudge inp p s = s \/
  ((60 < now inp - ss_last_interaction_time s)%Q /\
   idle_nudge inp p s
   = mkSession (ss_user_profile s)
       (ss_conversation_history s ++
        [AssistantMsg (nth (nudge_choice inp)
                           (engagement_messages (preferred_name p)) "")])
       (ss_conversation_id s) (ss_user_id s) (ss_preferred_technique s)
       (ss_onboarding_complete s) (ss_current_message_processed s)
       (now inp) (Some (now inp)) (ss_input_key s)).
Proof.
  unfold idle_nudge.
  destruct (Qle_bool (now inp - ss_last_interaction_time s) 60) eqn:H60;
    cbn [negb]; [now left|].
  destruct (match ss_last_engagement_time s with
            | None => true | Some t => _ end); [|now left].
  right. split; [|reflexivity].
  apply Qnot_le_lt. intro Hle. apply Qle_bool_iff in Hle. congruence.
Qed.

(** X17: the idle nudge appends a turn only after more than 60 time units
    without interaction; when it fires it appends exactly one assistant
    turn, and a further pass within 100 time units of it appends
    nothing: one nudge per cool-down. *)
Theorem nudge_once_per_cooldown (inp1 inp2 : Inputs) (p : UserProfile)
    (s : Session) :
  let s1 := idle_nudge inp1 p s in
  ss_conversation_history s1 <> ss_conversation_history s ->
  (now inp2 - now inp1 <= 100)%Q ->
  (60 < now inp1 - ss_last_interaction_time s)%Q /\
  (exists text,
     ss_conversation_history s1
     = (ss_conversation_history s ++ [AssistantMsg text])%list) /\
  ss_preferred_technique s1 = ss_preferred_technique s /\
  idle_nudge inp2 p s1 = s1.
Proof.
  cbv zeta. intros Hfired Hcool.
  destruct (idle_nudge_cases inp1 p s) as [E|[H60 E]];
    [rewrite E in Hfired; now destruct Hfired|].
  rewrite E. cbn [ss_conversation_history ss_preferred_technique].
  split; [exact H60|]. split; [eexists; reflexivity|].
  split; [reflexivity|].
  apply (idle_nudge_cooldown inp2 p _ (now inp1));
    [reflexivity | exact Hcool].
Qed.

Lemma nudge_once_per_cooldown_witness :
  let inp1 := mkInputs 61%Q Sample.form1 None "" "" "r" "c" "u" true 1 in
  let inp2 := mkInputs 150%Q Sample.form1 None "" "" "r" "c" "u" true 2 in
  idle_nudge inp2 Sample.profile (idle_nudge inp1 Sample.profile (fst Sample.p3))
  = idle_nudge inp1 Sample.profile (fst Sample.p3).
Proof.
  cbv zeta.
  refine (proj2 (proj2 (proj2
    (nudge_once_per_cooldown
       (mkInputs 61%Q Sample.form1 None "" "" "r" "c" "u" true 1)
       (mkInputs 150%Q Sample.form1 None "" "" "r" "c" "u" true 2)
       Sample.profile (fst Sample.p3) _ _)))).
  - vm_compute. discriminate.
  - vm_compute. discriminate.
Defined.

(** ** Context and profile texts *)

Lemma last_n_app_long {A} (n : nat) (older window : list A) :
  n <= List.length window ->
  PyStr.last_n n (older ++ window) = PyStr.last_n n window.
Proof.
  intro Hlen. unfold PyStr.last_n. rewrite length_app, skipn_app.
  rewrite skipn_all2 by lia. simpl. f_equal. lia.
Qed.

(** X18: turns older than the last five have no influence on the context:
    two histories that end with the same five or more turns give the same
    context, whatever came before. *)
Theorem context_ignores_older_turns (older window : list message) :
  CONTEXT_WINDOW <= List.length window ->
  get_conversation_context (older ++ window)
  = get_conversation_context window.
Proof.
  intro Hlen. unfold get_conversation_context.
  now rewrite last_n_app_long.
Qed.

Lemma context_ignores_older_turns_witness :
  get_conversation_context
    ([UserMsg "old"; AssistantMsg "older"] ++
     [UserMsg "a"; AssistantMsg "b"; UserMsg "c"; AssistantMsg "d";
      UserMsg "e"])
  = get_conversation_context
      [UserMsg "a"; AssistantMsg "b"; UserMsg "c"; AssistantMsg "d";
       UserMsg "e"].
Proof.
  apply (context_ignores_older_turns [UserMsg "old"; AssistantMsg "older"]).
  unfold CONTEXT_WINDOW. simpl. lia.
Defined.

Lemma rstrip_idem (s : string) : PyStr.rstrip (PyStr.rstrip s) = PyStr.rstrip s.
Proof.
  induction s as [|c r IH]; simpl; [reflexivity|].
  destruct (PyStr.rstrip r) as [|c' r'] eqn:E.
  - destruct (PyStr.isspace c) eqn:Ec; simpl; [reflexivity|].
    now rewrite Ec.
  - simpl in IH. simpl. now rewrite IH.
Qed.

Lemma rstrip_head (c : ascii) (r : string) :
  PyStr.isspace c = false ->
  exists r', PyStr.rstrip (String c r) = String c r'.
Proof.
  intro Hc. simpl. destruct (PyStr.rstrip r); [rewrite Hc|]; eauto.
Qed.

Lemma lstrip_head (s : string) :
  PyStr.lstrip s = "" \/
  exists c r, PyStr.lstrip s = String c r /\ PyStr.isspace c = false.
Proof.
  induction s as [|c r IH]; simpl; [now left|].
  destruct (PyStr.isspace c) eqn:Ec; [exact IH|]. right. eauto.
Qed.

Lemma strip_head (s : string) :
  PyStr.strip s = "" \/
  exists c r, PyStr.strip s = String c r /\ PyStr.isspace c = false.
Proof.
  unfold PyStr.strip. destruct (lstrip_head s) as [->|(c & r & -> & Hc)].
  - now left.
  - right. destruct (rstrip_head c r Hc) as [r' ->]. eauto.
Qed.

Lemma strip_idem (s : string) : PyStr.strip (PyStr.strip s) = PyStr.strip s.
Proof.
  destruct (strip_head s) as [E|(c & r & E & Hc)].
  - now rewrite E.
  - unfold PyStr.strip at 1. rewrite E. simpl PyStr.lstrip. rewrite Hc.
    rewrite <- E. unfold PyStr.strip. apply rstrip_idem.
Qed.

Lemma rstrip_last (s : string) (c : ascii) :
  last_char (PyStr.rstrip s) = Some c -> PyStr.isspace c = false.
Proof.
  induction s as [|c0 r IH]; simpl; [discriminate|].
  destruct (PyStr.rstrip r) as [|c' r'] eqn:E.
  - destruct (PyStr.isspace c0) eqn:Ec; simpl; [discriminate|].
    intros [= <-]. exact Ec.
  - simpl. exact IH.
Qed.

Lemma rstrip_cons_nonempty (c : ascii) (t : string) :
  PyStr.rstrip t <> "" ->
  PyStr.rstrip (String c t) = String c (PyStr.rstrip t).
Proof.
  intro H. simpl. destruct (PyStr.rstrip t); [now destruct H | reflexivity].
Qed.

Lemma rstrip_keeps_prefix (a b : string) (c : ascii) :
  last_char a = Some c -> PyStr.isspace c = false ->
  PyStr.rstrip (a ++ b) = a ++ PyStr.rstrip b.
Proof.
  revert c. induction a as [|c0 a IH]; intros c Hlast Hc; [discriminate|].
  destruct a as [|c1 a].
  - simpl in Hlast. injection Hlast as ->. simpl.
    destruct (PyStr.rstrip b); [now rewrite Hc | reflexivity].
  - assert (Hl : last_char (String c1 a) = Some c) by exact Hlast.
    specialize (IH c Hl Hc).
    change ((String c0 (String c1 a)) ++ b)
      with (String c0 ((String c1 a) ++ b)).
    rewrite rstrip_cons_nonempty; rewrite IH; [reflexivity|].
    simpl. discriminate.
Qed.

(** X19: the context of a history that is not empty begins with the role
    prefix of the oldest turn of the window, User: or BestieAI:, and its
    last character is no white space: the line end after the last turn, and
    white space at the end of the last message, are removed. The context of
    the empty history is the empty string. *)
Theorem context_is_trimmed (history : list message) :
  get_conversation_context [] = "" /\
  (forall c, last_char (get_conversation_context history) = Some c ->
             PyStr.isspace c = false) /\
  (forall m rest,
     PyStr.last_n CONTEXT_WINDOW history = m :: rest ->
     exists tail,
       get_conversation_context history
       = (if is_user m then "User:" else "BestieAI:") ++ tail).
Proof.
  split; [reflexivity|]. split.
  - intros c. unfold get_conversation_context, PyStr.strip. apply rstrip_last.
  - intros m rest Hw. unfold get_conversation_context.
    rewrite fold_context_step, Hw. simpl. unfold context_line at 1.
    unfold PyStr.strip.
    destruct (is_user m).
    + change (("User" ++ ": " ++ msg_content m ++ PyStr.nl) ++
              fold_right String.append "" (map context_line rest))
        with ("User:" ++ (" " ++ (msg_content m ++ PyStr.nl) ++
              fold_right String.append "" (map context_line rest))).
      simpl PyStr.lstrip.
      eexists. apply (rstrip_keeps_prefix "User:" _ ":"%char); reflexivity.
    + change (("BestieAI" ++ ": " ++ msg_content m ++ PyStr.nl) ++
              fold_right String.append "" (map context_line rest))
        with ("BestieAI:" ++ (" " ++ (msg_content m ++ PyStr.nl) ++
              fold_right String.append "" (map context_line rest))).
      simpl PyStr.lstrip.
      eexists. apply (rstrip_keeps_prefix "BestieAI:" _ ":"%char); reflexivity.
Qed.

(** ** The lists of the profile *)

Lemma split_on_length (sep : ascii) (s : string) :
  List.length (PyStr.split_on sep s) = S (count_char sep s).
Proof.
  induction s as [|c r IH]; simpl; [reflexivity|].
  destruct (Ascii.eqb c sep); simpl; [now rewrite IH|].
  destruct (PyStr.split_on sep r); simpl in *; [discriminate | exact IH].
Qed.

(** Joining the pieces of a split with the separator gives the string
    back. *)
Lemma join_split_on (sep : ascii) (s : string) :
  PyStr.join (String sep "") (PyStr.split_on sep s) = s.
Proof.
  induction s as [|c r IH]; simpl; [reflexivity|].
  destruct (Ascii.eqb_spec c sep) as [->|Hne].
  - destruct (PyStr.split_on sep r) as [|p ps] eqn:E.
    + pose proof (split_on_length sep r) as H. rewrite E in H. discriminate.
    + simpl in *. now rewrite IH.
  - destruct (PyStr.split_on sep r) as [|p ps] eqn:E.
    + pose proof (split_on_length sep r) as H. rewrite E in H. discriminate.
    + destruct ps as [|q qs]; simpl in *; now rewrite <- IH.
Qed.

(** No piece of a split holds the separator. *)
Lemma split_on_pieces (sep : ascii) (s : string) :
  Forall (fun piece => count_char sep piece = 0) (PyStr.split_on sep s).
Proof.
  induction s as [|c r IH]; simpl; [repeat constructor|].
  destruct (Ascii.eqb c sep) eqn:Ec.
  - constructor; [reflexivity | exact IH].
  - destruct (PyStr.split_on sep r) as [|p ps]; [repeat constructor; simpl;
      now rewrite Ec|].
    inversion IH; subst. constructor; [|assumption].
    simpl. now rewrite Ec.
Qed.

Lemma lstrip_all_space (s : string) :
  all_space s = true -> PyStr.lstrip s = "".
Proof.
  induction s as [|c r IH]; simpl; [reflexivity|].
  destruct (PyStr.isspace c); [exact IH | discriminate].
Qed.

Lemma lstrip_not_all_space (s : string) :
  all_space s = false ->
  exists c r, PyStr.lstrip s = String c r /\ PyStr.isspace c = false.
Proof.
  induction s as [|c r IH]; simpl; [discriminate|].
  destruct (PyStr.isspace c) eqn:Ec; [exact IH | eauto].
Qed.

(** A string strips to the empty string exactly when it is blank. *)
Lemma strip_truthy (s : string) :
  PyStr.truthy (PyStr.strip s) = negb (all_space s).
Proof.
  unfold PyStr.strip. destruct (all_space s) eqn:E.
  - now rewrite lstrip_all_space.
  - destruct (lstrip_not_all_space s E) as (c & r & -> & Hc).
    destruct (rstrip_head c r Hc) as [r' ->]. reflexivity.
Qed.

Lemma filter_truthy_strip (l : list string) :
  filter PyStr.truthy (map PyStr.strip l)
  = map PyStr.strip (filter (fun piece => negb (all_space piece)) l).
Proof.
  induction l as [|x l IH]; simpl; [reflexivity|].
  rewrite strip_truthy. destruct (negb (all_space x)); simpl; now rewrite IH.
Qed.

(** X20: the interests of the profile are the selected ones, in their
    order, followed by the pieces of the free-text field that are not
    blank, each stripped of white space at both ends, in the order of the
    field. The pieces are the parts of the field between its commas:
    joined by commas they give the field back, and none holds a comma.
    Every added interest is free of white space at both ends and is not
    empty; an empty or blank field adds nothing. *)
Theorem custom_interests_are_clean (f : OnboardingForm) :
  let field := f_custom_interest f in
  let pieces := PyStr.split_on comma field in
  let added :=
    map PyStr.strip (filter (fun piece => negb (all_space piece)) pieces) in
  PyStr.join "," pieces = field /\
  Forall (fun piece => count_char comma piece = 0) pieces /\
  top_interests (collect_user_profile f)
  = (f_selected_interests f ++ added)%list /\
  Forall (fun i => i <> "" /\ PyStr.strip i = i) added /\
  (all_space field = true -> added = []).
Proof.
  cbv zeta. split; [apply join_split_on|]. split; [apply split_on_pieces|].
  split; [|split].
  - unfold collect_user_profile; simpl.
    destruct (f_custom_interest f) as [|c r] eqn:E.
    + simpl. now rewrite app_nil_r.
    + cbn [PyStr.truthy]. now rewrite filter_truthy_strip.
  - rewrite <- filter_truthy_strip. apply Forall_forall. intros i Hi.
    apply filter_In in Hi. destruct Hi as [Hin Ht].
    apply in_map_iff in Hin. destruct Hin as (piece & <- & _). split.
    + intro H. rewrite H in Ht. discriminate.
    + apply strip_idem.
  - intro Hblank.
    assert (Hall : forall piece,
              In piece (PyStr.split_on comma (f_custom_interest f)) ->
              all_space piece = true).
    { revert Hblank. generalize (f_custom_interest f) as s.
      induction s as [|c r IH]; simpl.
      - intros _ piece [<-|[]]. reflexivity.
      - destruct (PyStr.isspace c) eqn:Ec; [|discriminate]. simpl.
        intros Hr piece. specialize (IH Hr).
        destruct (Ascii.eqb c comma).
        + intros [<-|Hin]; [reflexivity | now apply IH].
        + destruct (PyStr.split_on comma r) as [|p ps]; simpl.
          * intros [<-|[]]. simpl. now rewrite Ec.
          * intros [<-|Hin]; [simpl; rewrite Ec; apply IH; now left
                             | apply IH; now right]. }
    induction (PyStr.split_on comma (f_custom_interest f)) as [|x l IH];
      simpl; [reflexivity|].
    rewrite (Hall x) by now left. simpl. apply IH.
    intros piece Hin. apply Hall. now right.
Qed.

(** X21: the recent topics of the profile are empty when the field is
    empty; otherwise they are the pieces of the field, each stripped of
    white space at both ends, in the order of the field, pieces that are
    empty or blank included, so there is one more topic than there are
    commas. The pieces are the parts of the field between its commas:
    joined by commas they give the field back, and none holds a comma. *)
Theorem recent_topics_count (f : OnboardingForm) :
  let field := f_recent_topics f in
  let pieces := PyStr.split_on comma field in
  PyStr.join "," pieces = field /\
  Forall (fun piece => count_char comma piece = 0) pieces /\
  recent_topics (collect_user_profile f)
  = (if PyStr.truthy field then map PyStr.strip pieces else []) /\
  List.length (recent_topics (collect_user_profile f))
  = (if PyStr.truthy field then S (count_char comma field) else 0).
Proof.
  cbv zeta. split; [apply join_split_on|]. split; [apply split_on_pieces|].
  unfold collect_user_profile; simpl. split; [reflexivity|].
  destruct (PyStr.truthy (f_recent_topics f)); [|reflexivity].
  now rewrite length_map, split_on_length.
Qed.

Example profile_from_form :
  let f := mkForm "Ann" "" "Direct" ["Music"] " Pottery , ,Bird watching"
                  "" "work, ,health" "" "" "Neutral" in
  top_interests (collect_user_profile f) = ["Music"; "Pottery"; "Bird watching"]
  /\ recent_topics (collect_user_profile f) = ["work"; ""; "health"].
Proof. split; reflexivity. Qed.

(** ** Growth of the history *)

Lemma chat_vote_users (click : option Click) (log : PreferenceLog)
    (h h' : list message) (log' : PreferenceLog) :
  chat_vote click log h = Some (h', log') ->
  filter is_user h' = filter is_user h /\ List.length h' = List.length h.
Proof.
  intro H. apply chat_vote_shape in H.
  destruct H as (pre & post & c & rid & r & a & b & t & -> & -> & _).
  rewrite !filter_app, !length_app. simpl. auto.
Qed.

(** X22: a pass that is not started by the button that saves and ends
    removes no turn: the history does not get shorter, the user turns it had
    are kept in their order with at most one more after them, and the
    identifiers of the turns with candidates are kept with at most one more
    after them. *)
Theorem history_only_grows (env : Env) (inp : Inputs) (s : Session)
    (w : World) :
  click inp <> Some SaveAndEnd ->
  let h := ss_conversation_history s in
  let h' := ss_conversation_history (fst (main env inp s w)) in
  List.length h <= List.length h' /\
  (filter is_user h' = filter is_user h \/
   filter is_user h' = (filter is_user h ++ [UserMsg (user_input inp)])%list) /\
  (experiment_ids h' = experiment_ids h \/
   experiment_ids h' = (experiment_ids h ++ [uuid_response inp])%list).
Proof.
  intro Hclick. cbv zeta.
  destruct (main_shape env inp s w) as (hw & Hw & Hs). cbv zeta in Hs.
  assert (Hhw : List.length (ss_conversation_history s) <= List.length hw /\
                filter is_user hw = filter is_user (ss_conversation_history s) /\
                experiment_ids hw = experiment_ids (ss_conversation_history s)).
  { destruct Hw as [->|[-> [text ->]]]; simpl; auto with arith. }
  destruct Hhw as (Hl & Hu & Hi).
  destruct Hs as [[-> _]|[(text & -> & _)|[(Hc & _)|[(_ & Hv)|(r & a & b & _ & _ & _ & _ & ->)]]]].
  - auto.
  - rewrite filter_app, experiment_ids_app, length_app. simpl.
    rewrite !app_nil_r. split; [lia | auto].
  - contradiction.
  - destruct (chat_vote_users _ _ _ _ _ Hv) as [Hu' Hl'].
    apply chat_vote_Some in Hv. destruct Hv as (rid & t & _ & _ & _ & Hi').
    rewrite Hu', Hl', Hi'. auto.
  - rewrite filter_app, experiment_ids_app, length_app. simpl.
    rewrite Hu, Hi. split; [lia | auto].
Qed.

Lemma history_only_grows_witness :
  List.length (ss_conversation_history (fst Sample.p2))
  <= List.length (ss_conversation_history (fst Sample.p3)).
Proof.
  refine (proj1 (history_only_grows Sample.env
                   (Sample.inputs (Some (PreferB "r1")) "" "r2")
                   (fst Sample.p2) (snd Sample.p2) _)).
  discriminate.
Defined.

(** ** The named profile *)

Lemma collect_user_profile_preferred_name_eq (f : OnboardingForm) :
  preferred_name (collect_user_profile f)
  = if PyStr.truthy (f_preferred_name f) then f_preferred_name f
    else f_name f.
Proof. reflexivity. Qed.

Lemma main_profile (env : Env) (inp : Inputs) (s : Session) (w : World) :
  let p' := ss_user_profile (fst (main env inp s w)) in
  p' = ss_user_profile s \/ p' = None \/
  (p' = Some (collect_user_profile (form inp)) /\
   PyStr.truthy (f_name (form inp)) = true).
Proof.
  cbv zeta. unfold main.
  destruct (negb (env_truthy _)); [auto|].
  destruct (negb (ss_onboarding_complete s)).
  { destruct (click inp) as [[| | | |]|]; auto.
    change (name (collect_user_profile (form inp))) with (f_name (form inp)).
    destruct (PyStr.truthy (f_name (form inp))); simpl; auto. }
  destruct (ss_user_profile s) as [profile|] eqn:Hp; [|rewrite ?Hp; auto].
  cbv zeta.
  assert (Hchat : forall s1, ss_user_profile s1 = Some profile ->
            ss_user_profile (fst (chat_and_input env inp profile s1 w))
            = Some profile).
  { intros s1 H1. unfold chat_and_input.
    destruct (chat_vote _ _ _) as [[h' l']|]; [exact H1|].
    destruct (submit_message env inp profile s1 w) as [[s' w']|] eqn:Hsub.
    - apply submit_message_Some in Hsub. simpl.
      destruct Hsub as (_ & _ & _ & _ & _ & _ & ->). exact H1.
    - simpl. destruct (idle_nudge_spec inp profile s1) as (_ & _ & _ & _ & ->).
      exact H1. }
  destruct (click inp) as [[| | | |]|];
    try (left; apply Hchat; reflexivity).
  - left. reflexivity.
  - unfold save_and_end.
    destruct (save_conversation _ _ _ _ _ _ _ _ _ _) as [[r|e] w']; simpl; auto.
Qed.

(** X23: in a run of the program a profile that is set has a name and a
    preferred name that are not empty, so the welcome turn and the nudges
    always address the user by a name. *)
Theorem profile_is_named (env : Env) (s : Session) (w : World)
    (p : UserProfile) :
  run env s w ->
  ss_user_profile s = Some p ->
  PyStr.truthy (name p) = true /\ PyStr.truthy (preferred_name p) = true.
Proof.
  intro Hrun. revert p.
  induction Hrun as [cid uid t w|inp s w _ IH _]; intros p Hp;
    [discriminate|].
  destruct (main_profile env inp s w) as [E|[E|[E Hname]]]; cbv zeta in E;
    rewrite E in Hp.
  - now apply IH.
  - discriminate.
  - injection Hp as <-. split; [exact Hname|].
    rewrite collect_user_profile_preferred_name_eq.
    destruct (f_preferred_name (form inp)); [exact Hname | reflexivity].
Qed.

Lemma profile_is_named_witness :
  PyStr.truthy (name Sample.profile) = true /\
  PyStr.truthy (preferred_name Sample.profile) = true.
Proof.
  apply (profile_is_named Sample.env (fst Sample.p3) (snd Sample.p3)
           Sample.profile run_sample_p3).
  vm_compute. reflexivity.
Defined.

(** ** A vote, then the next message *)

Lemma main_vote_session (env : Env) (s : Session) (w : World)
    (inp : Inputs) (l : label) (pre post : list message) (c rid : string)
    (r : Responses) (a b : technique) (p : UserProfile) :
  NoDup (experiment_ids (ss_conversation_history s)) ->
  env_truthy (OPENAI_API_KEY env) = true ->
  ss_onboarding_complete s = true ->
  ss_user_profile s = Some p ->
  ss_conversation_history s
    = (pre ++ ExperimentMsg c rid r a b :: post)%list ->
  Dict.mem rid (ss_preferred_technique s) = false ->
  click inp = Some (click_of l rid) ->
  main env inp s w
  = (mkSession (Some p)
       (pre ++ ExperimentMsg (responses_get r (technique_of l a b)) rid r a b
          :: post)
       (ss_conversation_id s) (ss_user_id s)
       (Dict.set rid (technique_of l a b) (ss_preferred_technique s))
       true false (ss_last_interaction_time s)
       (ss_last_engagement_time s) (ss_input_key s), w).
Proof.
  intros Hids Hkey Honb Hp Hh Hmem Hclick.
  unfold main. rewrite Hkey, Honb, Hp. cbn [negb]. cbv zeta.
  assert (Hw : welcome_if_empty p (ss_conversation_history s)
               = ss_conversation_history s).
  { rewrite Hh. now destruct pre. }
  rewrite Hw. rewrite Hh in Hids.
  assert (Hsel : match click inp with
                 | Some UpdateProfile | Some SaveAndEnd => false
                 | _ => true
                 end = true) by (rewrite Hclick; now destruct l).
  destruct (click inp) as [[| | | |]|] eqn:Hc; try discriminate Hsel;
    unfold chat_and_input;
    cbn [ss_preferred_technique ss_conversation_history];
    rewrite Hc, Hclick, Hh, chat_vote_at by assumption;
    cbn; rewrite ?Hp, ?Honb; reflexivity.
Qed.

Lemma submit_message_taken (env : Env) (inp : Inputs) (p : UserProfile)
    (s : Session) (w : World) :
  PyStr.truthy (user_input inp) = true ->
  ss_current_message_processed s = false ->
  exists s' w' r a b,
    submit_message env inp p s w = Some (s', w') /\
    ss_conversation_history s'
    = (ss_conversation_history s ++
       [UserMsg (user_input inp);
        ExperimentMsg "" (uuid_response inp) r a b])%list /\
    ss_preferred_technique s' = ss_preferred_technique s /\
    ss_current_message_processed s' = true.
Proof.
  intros Hin Hflag. unfold submit_message. rewrite Hin, Hflag. simpl.
  destruct (get_completion env _ (user_input inp) w) as [r1 w1].
  destruct (get_completion env _ (user_input inp) w1) as [r2 w2].
  destruct (shuffle_swaps inp); do 5 eexists;
    (split; [reflexivity|]); simpl; rewrite <- app_assoc; simpl; auto.
Qed.

(** X24: in a run of the program, once the waiting turn is voted on the
    flag of the pending message is down, and the pass that brings the next
    typed message (and no button) takes it: the user turn and a new turn
    with two candidates and empty content are appended after the voted
    turn, and the flag is up again. *)
Theorem message_taken_after_vote (env : Env) (s : Session) (w : World)
    (inp1 inp2 : Inputs) (l : label) (pre post : list message)
    (c rid : string) (r : Responses) (a b : technique) :
  run env s w ->
  env_truthy (OPENAI_API_KEY env) = true ->
  ss_onboarding_complete s = true ->
  ss_conversation_history s
    = (pre ++ ExperimentMsg c rid r a b :: post)%list ->
  Dict.mem rid (ss_preferred_technique s) = false ->
  click inp1 = Some (click_of l rid) ->
  click inp2 = None ->
  PyStr.truthy (user_input inp2) = true ->
  let r1 := main env inp1 s w in
  let r2 := main env inp2 (fst r1) (snd r1) in
  ss_current_message_processed (fst r1) = false /\
  ss_current_message_processed (fst r2) = true /\
  ss_preferred_technique (fst r2) = ss_preferred_technique (fst r1) /\
  exists r' a' b',
    ss_conversation_history (fst r2)
    = (ss_conversation_history (fst r1) ++
       [UserMsg (user_input inp2);
        ExperimentMsg "" (uuid_response inp2) r' a' b'])%list.
Proof.
  intros Hrun Hkey Honb Hh Hmem Hc1 Hc2 Hin. cbv zeta.
  destruct (run_inv _ _ _ Hrun) as [(Hids & _) Hprof].
  specialize (Hprof Honb).
  destruct (ss_user_profile s) as [p|] eqn:Hp; [|contradiction].
  rewrite (main_vote_session env s w inp1 l pre post c rid r a b p)
    by assumption.
  cbn [fst snd ss_current_message_processed ss_conversation_history
       ss_preferred_technique].
  split; [reflexivity|].
  unfold main. rewrite Hkey, Hc2. cbn [negb ss_onboarding_complete
    ss_user_profile]. cbv zeta.
  assert (Hw : forall x, welcome_if_empty p
                 (pre ++ ExperimentMsg x rid r a b :: post)
               = (pre ++ ExperimentMsg x rid r a b :: post)%list)
    by (intro x; now destruct pre).
  cbn [ss_conversation_history]. rewrite Hw.
  unfold chat_and_input.
  cbn [ss_preferred_technique ss_conversation_history].
  rewrite Hc2, chat_vote_no_click.
  match goal with |- context [submit_message env inp2 p ?s1 w] =>
    destruct (submit_message_taken env inp2 p s1 w Hin eq_refl)
      as (s' & w' & r' & a' & b' & -> & Hh' & Hl' & Hf')
  end.
  cbn [fst]. rewrite Hf', Hl', Hh'.
  cbn [ss_preferred_technique ss_conversation_history].
  split; [reflexivity|]. split; [reflexivity|].
  exists r', a', b'. reflexivity.
Qed.

Lemma message_taken_after_vote_witness :
  let r1 := main Sample.env (Sample.inputs (Some (PreferB "r1")) "" "r2")
              (fst Sample.p2) (snd Sample.p2) in
  let r2 := main Sample.env (Sample.inputs None "thanks" "r2")
              (fst r1) (snd r1) in
  ss_current_message_processed (fst r1) = false /\
  ss_current_message_processed (fst r2) = true.
Proof.
  cbv zeta.
  pose proof (message_taken_after_vote Sample.env (fst Sample.p2)
       (snd Sample.p2)
       (Sample.inputs (Some (PreferB "r1")) "" "r2")
       (Sample.inputs None "thanks" "r2") OptionB
       [AssistantMsg "Hi Ann! I'm BestieAI, your friendly companion. What's on your mind today?";
        UserMsg "I'm nervous about my trip tomorrow"]
       [] "" "r1" (mkResponses "reply one" "reply two")
       dynamic_context conditional
       run_sample_p2 eq_refl eq_refl eq_refl eq_refl eq_refl eq_refl eq_refl)
    as H.
  cbv zeta in H. destruct H as (H1 & H2 & _). split; assumption.
Defined.

(** ** What is written *)

Lemma send_email_csv (env : Env) (to subject body : string)
    (att : list string) (w : World) :
  csv_file (snd (send_email env to subject body att w)) = csv_file w.
Proof.
  unfold send_email. destruct (smtp_port env); [|reflexivity].
  destruct (negb _ || negb _)%bool; [reflexivity|].
  destruct (first_error _ _); [reflexivity|].
  destruct (smtp_send env) as [f|]; [|reflexivity].
  now destruct (sf_after_send f).
Qed.

Lemma save_conversation_document (env : Env) (log : PreferenceLog)
    (profile : option UserProfile) (cid uid : string) (h : list message)
    (pt : option technique) (fb : string) (report : bool) (w : World) :
  makedirs env = None -> json_dump env = None ->
  let tally := tally_history h log in
  In (conversation_filename cid,
      Complete
        (mkJson cid uid h pt (technique_percentages (fst tally) (snd tally))
                profile (snd tally) log fb))
     (json_files (snd (save_conversation env log profile cid uid h pt fb
                         report w))).
Proof.
  intros Hmk Hjson. cbv zeta. unfold save_conversation.
  destruct (tally_history h log) as [counts total]. rewrite Hmk, Hjson.
  cbn [fst snd]. fold (conversation_filename cid).
  destruct profile as [p|]; [|apply json_written].
  match goal with
  | |- context [match ?x with Returned _ => _ | Raised _ => _ end] =>
      destruct x as [df|e] end; [|apply json_written].
  destruct (csv_write env) as [f|].
  { destruct (wf_after_open f); apply json_written. }
  destruct report; [|apply json_written].
  destruct (ADMIN_EMAIL env) as [admin|]; [|apply json_written].
  destruct (PyStr.truthy admin); [|apply json_written].
  match goal with |- context [send_email env ?a ?b ?c ?d ?e] =>
    pose proof (send_email_files env a b c d e) as Hf;
    destruct (send_email env a b c d e) as [[sent|err] w3]
  end; simpl in *; rewrite Hf; apply json_written.
Qed.

(** X25: in a run of the program, when the document can be written the
    save at the end of the session puts on disk a document that holds the
    history, the whole preference log, the number of its entries as the
    total, the dominant strategy of the log, and percentages that are
    those of the summary. *)
Theorem saved_document_records_session (env : Env) (s : Session) (w : World)
    (fb : string) (report : bool) :
  run env s w ->
  makedirs env = None -> json_dump env = None ->
  let log := ss_preferred_technique s in
  let r := save_conversation env log (ss_user_profile s)
             (ss_conversation_id s) (ss_user_id s)
             (ss_conversation_history s) (dominant log) fb report w in
  exists data,
    In (conversation_filename (ss_conversation_id s), Complete data)
       (json_files (snd r)) /\
    j_conversation_history data = ss_conversation_history s /\
    j_detailed_preferences data = log /\
    j_total_responses data = List.length log /\
    j_preferred_technique data = dominant log /\
    j_feedback data = fb /\
    forall t, (pct_get t (j_technique_percentages data)
               == summary_percent log t)%Q.
Proof.
  intros Hrun Hmk Hjson. cbv zeta.
  destruct (run_inv _ _ _ Hrun) as [Hcore _].
  destruct (tally_history_log _ _ _ Hcore) as [Hn Hc].
  eexists. split; [apply save_conversation_document; assumption|].
  cbn [j_conversation_history j_detailed_preferences j_total_responses
       j_preferred_technique j_feedback j_technique_percentages].
  repeat split; auto.
  intro t. unfold summary_percent.
  rewrite total_votes_count_votes, tc_get_count_votes.
  now rewrite pct_get_percentages, Hn, Hc.
Qed.

Lemma saved_document_records_session_witness :
  exists data,
    In (conversation_filename "conv-1", Complete data)
       (json_files
          (snd (save_conversation Sample.env
                  (ss_preferred_technique (fst Sample.p3))
                  (ss_user_profile (fst Sample.p3))
                  (ss_conversation_id (fst Sample.p3))
                  (ss_user_id (fst Sample.p3))
                  (ss_conversation_history (fst Sample.p3))
                  (dominant (ss_preferred_technique (fst Sample.p3)))
                  "fine" true (snd Sample.p3)))) /\
    j_total_responses data = 1.
Proof.
  destruct (saved_document_records_session Sample.env (fst Sample.p3)
              (snd Sample.p3) "fine" true run_sample_p3 eq_refl eq_refl)
    as (data & H1 & _ & _ & H4 & _).
  exists data. split; [exact H1 | exact H4].
Defined.

(** X26: when the document is written, pandas can read the summary table
    that is there, and the write of the table goes through, the save
    replaces the table by the rows pandas read back from it (none when
    there was no table), followed by exactly one new row; the new row
    carries the identifiers, the number of turns of the history, the number
    of rated turns, the strategy handed in, the name and style of the
    profile and the feedback. This holds whatever happens to the report
    afterwards. *)
Theorem csv_row_appended (env : Env) (log : PreferenceLog) (p : UserProfile)
    (cid uid : string) (h : list message) (pt : option technique)
    (fb : string) (report : bool) (w : World) :
  makedirs env = None -> json_dump env = None ->
  csv_readable env w -> csv_write env = None ->
  let r := save_conversation env log (Some p) cid uid h pt fb report w in
  exists row,
    csv_file (snd r) = Some (Complete (rows_read_back env w ++ [row])%list) /\
    c_conversation_id row = cid /\ c_user_id row = uid /\
    c_conversation_length row = List.length h /\
    c_total_responses row = snd (tally_history h log) /\
    c_preferred_technique row = pt /\
    c_user_name row = name p /\
    c_communication_style row = communication_style p /\
    c_feedback row = fb.
Proof.
  intros Hmk Hjson Hread Hcsv. cbv zeta. unfold save_conversation.
  destruct (tally_history h log) as [counts total].
  rewrite Hmk, Hjson, Hcsv.
  set (row := mkRow cid uid pt _ _ _ _ _ _ _).
  exists row. split; [|repeat split].
  cbn [csv_file with_json_files].
  assert (Hdf :
    match csv_file w with
    | Some content =>
        match read_csv env content with
        | Returned df => Returned (df ++ [row])%list
        | Raised e => Raised e
        end
    | None => Returned [row]
    end = Returned (rows_read_back env w ++ [row])%list).
  { unfold csv_readable in Hread. unfold rows_read_back.
    destruct (csv_file w) as [content|]; [|reflexivity].
    destruct Hread as [rows ->]. reflexivity. }
  rewrite Hdf.
  destruct report; [|reflexivity].
  destruct (ADMIN_EMAIL env) as [admin|]; [|reflexivity].
  destruct (PyStr.truthy admin); [|reflexivity].
  match goal with |- context [send_email env ?a ?b ?c ?d ?e] =>
    pose proof (send_email_csv env a b c d e) as Hf;
    destruct (send_email env a b c d e) as [[sent|err] w3]
  end; simpl in Hf |- *; rewrite Hf; reflexivity.
Qed.

Lemma csv_row_appended_witness :
  exists row,
    csv_file (snd (save_conversation Sample.env_smtp_down []
                     (Some Sample.profile) "conv-1" "user-1"
                     [UserMsg "hi"] None "ok" true Sample.world))
    = Some (Complete [row]) /\
    c_conversation_length row = 1.
Proof.
  destruct (csv_row_appended Sample.env_smtp_down [] Sample.profile
              "conv-1" "user-1" [UserMsg "hi"] None "ok" true Sample.world
              eq_refl eq_refl I eq_refl)
    as (row & H1 & _ & _ & H4 & _).
  exists row. split; [exact H1 | exact H4].
Defined.
